(** * dpdk-rs: the RTM lock-elision attempt [rte_try_tm] and the cycle counter

    Shallow embedding of [src/core/tsx.c] and [src/core/rdtsc.c].

    The C code talks to the processor through four instructions written as
    inline assembly (XBEGIN, XABORT, RDTSC, PAUSE) and through loads from the
    shared lock word.  What the processor and the other threads answer is
    collected in a [Hardware] record of scripts; the program is a function
    of that record and of a [Machine] state that holds the memory, counts
    what was executed and keeps a trace.  [rte_xend] and [rte_xtest] are
    not called by [rte_try_tm] and are left out.

    The busy-wait [while ( *lock)] has no bound in the source, and the
    rollback of XABORT is a jump backwards, so every loop runs on fuel and a
    run that exhausts it ends in [OutOfFuel].  A statement that the function
    returns is proved for all sufficient fuel. *)

From Stdlib Require Import ZArith NArith List Bool Lia.
Import ListNotations.
Open Scope Z_scope.

(** ** Machine integers *)

Definition uint32 (x : Z) : Z := x mod 2 ^ 32.
(** Two's complement reading of the low 32 bits, for [int]. *)
Definition int32 (x : Z) : Z := (x + 2 ^ 31) mod 2 ^ 32 - 2 ^ 31.

(** ** Constants of tsx.c (lines 7-17) *)

Definition RTE_XBEGIN_STARTED : Z := uint32 (Z.lnot 0).
Definition RTE_XABORT_EXPLICIT : Z := Z.shiftl 1 0.
Definition RTE_XABORT_RETRY : Z := Z.shiftl 1 1.
Definition RTE_XABORT_CONFLICT : Z := Z.shiftl 1 2.
Definition RTE_XABORT_CAPACITY : Z := Z.shiftl 1 3.
Definition RTE_XABORT_DEBUG : Z := Z.shiftl 1 4.
Definition RTE_XABORT_NESTED : Z := Z.shiftl 1 5.
Definition RTE_XABORT_CODE (x : Z) : Z := Z.land (Z.shiftr x 24) 255.
Definition RTE_RTM_MAX_RETRIES : Z := 20.
Definition RTE_XABORT_LOCK_BUSY : Z := 255.

(** ** rdtsc.c: the union of one 64-bit word with two 32-bit halves

    The union is eight bytes of storage.  RDTSC leaves the low half of the
    counter in EAX and the high half in EDX; the asm statement stores EAX to
    [lo_32] (offset 0) and EDX to [hi_32] (offset 4), and the function reads
    the eight bytes back as [tsc_64].  x86 is little-endian. *)

Fixpoint le_bytes (n : nat) (x : Z) : list Z :=
  match n with
  | O => []
  | S n' => x mod 256 :: le_bytes n' (x / 256)
  end.

Fixpoint le_value (bs : list Z) : Z :=
  match bs with
  | [] => 0
  | b :: bs' => b + 256 * le_value bs'
  end.

Record tsc_union := { tsc_bytes : list Z }.

Definition store_lo_hi (eax edx : Z) : tsc_union :=
  {| tsc_bytes := le_bytes 4 (uint32 eax) ++ le_bytes 4 (uint32 edx) |}.

Definition tsc_64 (u : tsc_union) : Z := le_value (firstn 8 (tsc_bytes u)).
Definition lo_32 (u : tsc_union) : Z := le_value (firstn 4 (tsc_bytes u)).
Definition hi_32 (u : tsc_union) : Z := le_value (firstn 4 (skipn 4 (tsc_bytes u))).

(** [__dpdk_rdtsc] of rdtsc.c, as a function of what RDTSC left in EAX and
    EDX. *)
Definition __dpdk_rdtsc (eax edx : Z) : Z := tsc_64 (store_lo_hi eax edx).

(** ** The machine *)

(** Shared memory: address to the value of the [int32_t] cell there. *)
Definition Mem := Z -> Z.

Inductive Event : Type :=
| EvBody (retries : Z)        (* ghost: the loop body starts, [retries] as it sees it *)
| EvXbegin (status : Z)       (* XBEGIN executed, EAX afterwards *)
| EvXabort (code : Z)         (* XABORT imm8 executed *)
| EvLoad (addr value : Z) (tx : bool)
                              (* a load from shared memory; [tx]: inside a transaction *)
| EvRdtsc (tsc : Z).          (* RDTSC executed *)

(** What the rest of the system answers.
    - [hw_xbegin k]: EAX after the k-th XBEGIN.  XBEGIN leaves EAX alone when
      the transaction starts, and the code loads it with
      [RTE_XBEGIN_STARTED] first; on an abort the processor resumes at the
      fallback address with the abort status in EAX.  The fallback offset in
      the asm statement is 0, so both ways continue at the next instruction.
    - [hw_rdtsc k]: EAX and EDX after the k-th RDTSC.
    - [hw_env k]: the stores of the other threads that reach memory before
      this thread's k-th load. *)
Record Hardware := {
  hw_xbegin : nat -> Z;
  hw_rdtsc : nat -> Z * Z;
  hw_env : nat -> Mem -> Mem
}.

Record Machine := mkMachine {
  mem : Mem;
  loads : nat;          (* loads executed *)
  xbegins : nat;        (* XBEGIN executed *)
  rdtscs : nat;         (* RDTSC executed *)
  pauses : N;           (* PAUSE executed *)
  in_tx : bool;         (* inside a transactional region *)
  trace : list Event    (* newest first *)
}.

Definition boot (m : Mem) : Machine :=
  mkMachine m 0 0 0 0 false [].

(** ** A state monad with fuel exhaustion *)

Inductive Res (A : Type) : Type :=
| Done (a : A)
| OutOfFuel.
Arguments Done {A} a.
Arguments OutOfFuel {A}.

Definition M (A : Type) : Type := Machine -> Res A * Machine.

Definition mret {A} (a : A) : M A := fun s => (Done a, s).
Definition mbind {A B} (m : M A) (k : A -> M B) : M B :=
  fun s => match m s with
           | (Done a, s') => k a s'
           | (OutOfFuel, s') => (OutOfFuel, s')
           end.
Definition out_of_fuel {A} : M A := fun s => (OutOfFuel, s).

Notation "x <- m ;; k" := (mbind m (fun x => k))
  (at level 61, m at next level, right associativity).
Notation "m ;;; k" := (mbind m (fun _ => k))
  (at level 61, right associativity).

(** ** The instructions *)

Definition log (e : Event) (s : Machine) : Machine :=
  mkMachine (mem s) (loads s) (xbegins s) (rdtscs s) (pauses s) (in_tx s)
            (e :: trace s).

(** [rte_xbegin] (lines 27-34).  The thread is inside a transaction
    afterwards exactly when EAX still holds [RTE_XBEGIN_STARTED]. *)
Definition rte_xbegin (hw : Hardware) : M Z := fun s =>
  let ret := uint32 (hw_xbegin hw (xbegins s)) in
  (Done ret,
   mkMachine (mem s) (loads s) (S (xbegins s)) (rdtscs s) (pauses s)
             (RTE_XBEGIN_STARTED =? ret) (EvXbegin ret :: trace s)).

(** EAX at the fallback address after [XABORT code] inside a transaction:
    the explicit bit and the code in bits 31:24. *)
Definition xabort_status (code : Z) : Z :=
  Z.lor RTE_XABORT_EXPLICIT (Z.shiftl (Z.land code 255) 24).

(** [rte_xabort] (lines 42-44).  Inside a transaction the region is rolled
    back and control does not reach the next statement: it resumes behind
    XBEGIN with the status returned here as [Some].  This thread stores
    nothing, so the rollback leaves [mem] as it is.  Outside a transaction
    XABORT does nothing and the next statement runs ([None]). *)
Definition rte_xabort (code : Z) : M (option Z) := fun s =>
  (Done (if in_tx s then Some (xabort_status code) else None),
   mkMachine (mem s) (loads s) (xbegins s) (rdtscs s) (pauses s) false
             (EvXabort code :: trace s)).

(** [rte_rdtsc] (lines 56-69), the same union as in rdtsc.c. *)
Definition rte_rdtsc (hw : Hardware) : M Z := fun s =>
  let '(eax, edx) := hw_rdtsc hw (rdtscs s) in
  let tsc := tsc_64 (store_lo_hi eax edx) in
  (Done tsc,
   mkMachine (mem s) (loads s) (xbegins s) (S (rdtscs s)) (pauses s)
             (in_tx s) (EvRdtsc tsc :: trace s)).

(** [__builtin_ia32_pause()]. *)
Definition pause_step (s : Machine) : Machine :=
  mkMachine (mem s) (loads s) (xbegins s) (rdtscs s) (N.succ (pauses s))
            (in_tx s) (trace s).
Definition pause : M unit := fun s => (Done tt, pause_step s).

(** [*lock]: the other threads' stores land, then the cell is read. *)
Definition load (hw : Hardware) (addr : Z) : M Z := fun s =>
  let m := hw_env hw (loads s) (mem s) in
  (Done (m addr),
   mkMachine m (S (loads s)) (xbegins s) (rdtscs s) (pauses s) (in_tx s)
             (EvLoad addr (m addr) (in_tx s) :: trace s)).

(** ** rte_try_tm (lines 71-106) *)

(** Lines 84-86: [while ( *lock) pause]. *)
Fixpoint wait_lock (hw : Hardware) (fuel : nat) (lock : Z) : M unit :=
  match fuel with
  | O => out_of_fuel
  | S fuel' =>
      v <- load hw lock ;;
      if v =? 0 then mret tt
      else pause ;;; wait_lock hw fuel' lock
  end.

(** Line 92: [(rte_rdtsc() & 0x7) | 1], converted to [int]. *)
Definition jitter (tsc : Z) : Z := int32 (Z.lor (Z.land tsc 7) 1).

(** Lines 91-93: the pause count for a body that sees [retries]. *)
Definition try_count (retries : Z) : Z := int32 (RTE_RTM_MAX_RETRIES - retries).
Definition pause_count (tsc retries : Z) : Z :=
  int32 (Z.shiftl (jitter tsc) (try_count retries)).

(** Lines 94-96: [for (int i = 0; i < pause_count; ++i) pause]. *)
Definition pause_loop (n : Z) : M unit := fun s =>
  (Done tt, N.iter (Z.to_N n) pause_step s).

(** Lines 91-96. *)
Definition backoff (hw : Hardware) (retries : Z) : M unit :=
  tsc <- rte_rdtsc hw ;;
  pause_loop (pause_count tsc retries).

(** How one pass through the loop body ends. *)
Inductive Ctl : Type :=
| CReturn (v : Z)
| CBreak
| CContinue.

(** Line 88-90: the test that selects the backoff. *)
Definition transient (status : Z) : bool :=
  negb (Z.land status RTE_XABORT_CONFLICT =? 0)
  || (negb (Z.land status RTE_XABORT_EXPLICIT =? 0)
      && (RTE_XABORT_CODE status =? RTE_XABORT_LOCK_BUSY)).

(** Lines 84-102: the body from the busy-wait on, for a [status] that is not
    [RTE_XBEGIN_STARTED]. *)
Definition abort_path (hw : Hardware) (fuel : nat) (lock retries status : Z)
  : M Ctl :=
  wait_lock hw fuel lock ;;;
  if transient status then
    backoff hw retries ;;; mret CContinue
  else if Z.land status RTE_XABORT_RETRY =? 0 then mret CBreak
  else mret CContinue.

(** Lines 77-102 for a given content of [status].  A rollback by
    [rte_xabort] comes back to line 77 with the abort status in [status];
    it is a backward jump, so [k] bounds how often it may happen.  When
    XABORT falls through, line 81 returns 1. *)
Fixpoint from_line77 (hw : Hardware) (fuel k : nat) (lock retries status : Z)
  : M Ctl :=
  if RTE_XBEGIN_STARTED =? status then
    v <- load hw lock ;;
    if negb (v =? 0) then
      r <- rte_xabort RTE_XABORT_LOCK_BUSY ;;
      match r with
      | Some status' =>
          match k with
          | O => out_of_fuel
          | S k' => from_line77 hw fuel k' lock retries status'
          end
      | None => mret (CReturn 1)
      end
    else mret (CReturn 1)
  else abort_path hw fuel lock retries status.

(** Lines 76-102: one pass through the loop body. *)
Definition loop_body (hw : Hardware) (fuel : nat) (lock retries : Z) : M Ctl :=
  fun s =>
  (status <- rte_xbegin hw ;;
   from_line77 hw fuel fuel lock retries status) (log (EvBody retries) s).

(** Lines 75-105: [while (retries--) { body }  return 0;].  [n] bounds the
    number of passes. *)
Fixpoint while_retries (hw : Hardware) (fuel n : nat) (lock retries : Z)
  : M Z :=
  match n with
  | O => out_of_fuel
  | S n' =>
      let cond := retries in
      let retries := int32 (retries - 1) in
      if cond =? 0 then mret 0
      else
        c <- loop_body hw fuel lock retries ;;
        match c with
        | CReturn v => mret v
        | CBreak => mret 0
        | CContinue => while_retries hw fuel n' lock retries
        end
  end.

Definition rte_try_tm (hw : Hardware) (fuel : nat) (lock : Z) : M Z :=
  while_retries hw fuel fuel lock RTE_RTM_MAX_RETRIES.

(** ** Vocabulary of the statements *)

(** The stores of the other threads between this thread's load number
    [from] and its load number [from + count]. *)
Fixpoint env_run (hw : Hardware) (from count : nat) (m : Mem) : Mem :=
  match count with
  | O => m
  | S c => env_run hw (S from) c (hw_env hw from m)
  end.

(** What the [j]-th load from now returns at [addr], counting from 0. *)
Definition next_read (hw : Hardware) (addr : Z) (s : Machine) (j : nat) : Z :=
  env_run hw (loads s) (S j) (mem s) addr.

(** The lock word is free again and again: every busy-wait ends. *)
Definition lock_released (hw : Hardware) (lock : Z) (s : Machine) : Prop :=
  forall k : nat, exists j : nat, next_read hw lock s (k + j) = 0.

(** The values of [retries] the passes saw, oldest first. *)
Fixpoint bodies (tr : list Event) : list Z :=
  match tr with
  | [] => []
  | EvBody r :: tr' => bodies tr' ++ [r]
  | _ :: tr' => bodies tr'
  end.

(** The trace without what happens outside a transaction attempt: RDTSC and
    the loads of the busy-wait are dropped.  Oldest first. *)
Definition in_attempt (e : Event) : bool :=
  match e with
  | EvLoad _ _ tx => tx
  | EvRdtsc _ => false
  | _ => true
  end.

Definition attempts (tr : list Event) : list Event :=
  rev (filter in_attempt tr).

(** [countdown from n]: [from - 1; from - 2; ...; from - n]. *)
Fixpoint countdown (from : Z) (n : nat) : list Z :=
  match n with
  | O => []
  | S n' => (from - 1) :: countdown (from - 1) n'
  end.

(** A flag of the status word is set. *)
Definition flag_set (status flag : Z) : Prop := Z.land status flag <> 0.

(** The value the next RDTSC of [s] delivers through the union. *)
Definition next_tsc (hw : Hardware) (s : Machine) : Z :=
  __dpdk_rdtsc (fst (hw_rdtsc hw (rdtscs s))) (snd (hw_rdtsc hw (rdtscs s))).

(** [only_env s s']: the memory of [s'] is the memory of [s] after the
    stores of the other threads that came in with the loads in between. *)
Definition only_env (hw : Hardware) (s s' : Machine) : Prop :=
  (loads s <= loads s')%nat /\
  mem s' = env_run hw (loads s) (loads s' - loads s) (mem s).

(** A computation whose every run, finished or not, satisfies [only_env]. *)
Definition keeps_mem {A} (hw : Hardware) (m : M A) : Prop :=
  forall s, only_env hw s (snd (m s)).

(** [waited s s' i]: [s'] is [s] after [i] loads that found the lock word
    taken, each followed by a pause, and one load that found it free. *)
Definition waited (hw : Hardware) (lock : Z) (s s' : Machine) (i : nat) : Prop :=
  next_read hw lock s i = 0 /\
  loads s' = (loads s + S i)%nat /\
  mem s' = env_run hw (loads s) (S i) (mem s) /\
  xbegins s' = xbegins s /\
  rdtscs s' = rdtscs s /\
  pauses s' = (pauses s + N.of_nat i)%N /\
  in_tx s' = in_tx s /\
  bodies (trace s') = bodies (trace s) /\
  (in_tx s = false -> attempts (trace s') = attempts (trace s)).

(** What one pass leaves behind besides its verdict. *)
Definition pass_done (hw : Hardware) (lock retries : Z) (s s' : Machine) : Prop :=
  xbegins s' = S (xbegins s) /\
  bodies (trace s') = bodies (trace s) ++ [retries] /\
  lock_released hw lock s'.

(** The load inside each transaction finds the lock word taken: the first
    load does, and so does every load that follows one that found the word
    free (a busy-wait ends with such a load, and the next load is the one
    of the next attempt). *)
Definition taken_at_attempts (hw : Hardware) (lock : Z) (s : Machine) : Prop :=
  next_read hw lock s 0 <> 0 /\
  forall j, next_read hw lock s j = 0 -> next_read hw lock s (S j) <> 0.

(** The attempts of passes that each start a transaction, load the value
    [v] of the lock word inside it and abort with LOCK_BUSY; one [v] per
    pass, the first pass seeing [retries - 1]. *)
Fixpoint busy_attempts (lock retries : Z) (vs : list Z) : list Event :=
  match vs with
  | [] => []
  | v :: vs' =>
      [EvBody (retries - 1); EvXbegin RTE_XBEGIN_STARTED;
       EvLoad lock v true; EvXabort RTE_XABORT_LOCK_BUSY]
      ++ busy_attempts lock (retries - 1) vs'
  end.

(** ** The remaining primitives of tsx.c *)

(** [rte_xend] (lines 36-39): XEND commits the transaction.  Outside a
    transaction the instruction raises a general protection fault, which is
    [None] here. *)
Definition rte_xend (s : Machine) : option Machine :=
  if in_tx s then
    Some (mkMachine (mem s) (loads s) (xbegins s) (rdtscs s) (pauses s) false
                    (trace s))
  else None.

(** [rte_xtest] (lines 46-54): XTEST clears ZF inside a transaction and
    SETNZ turns that into 1. *)
Definition rte_xtest : M Z := fun s =>
  (Done (if in_tx s then 1 else 0), s).

(** ** Vocabulary of the further properties *)

(** Every run of [m], finished or not, relates its first and last machine
    by [R]. *)
Definition run_keeps {A} (R : Machine -> Machine -> Prop) (m : M A) : Prop :=
  forall s, R s (snd (m s)).

Definition same_xbegins (s s' : Machine) : Prop := xbegins s' = xbegins s.

(** What [rte_try_tm] may add to the trace for the lock word at [lock]:
    loads from [lock] only, XABORT with LOCK_BUSY only. *)
Definition allowed_event (lock : Z) (e : Event) : Prop :=
  match e with
  | EvLoad addr _ _ => addr = lock
  | EvXabort code => code = RTE_XABORT_LOCK_BUSY
  | _ => True
  end.

Definition adds_allowed (lock : Z) (s s' : Machine) : Prop :=
  exists new, trace s' = new ++ trace s /\ Forall (allowed_event lock) new.

(** The status sends the pass to [break]: no conflict, not the explicit
    LOCK_BUSY abort, no retry flag. *)
Definition nonretryable (status : Z) : Prop :=
  status <> RTE_XBEGIN_STARTED /\
  transient status = false /\
  Z.land status RTE_XABORT_RETRY = 0.

(** The lock word is free at every load from [s] on. *)
Definition lock_free (hw : Hardware) (lock : Z) (s : Machine) : Prop :=
  forall j, next_read hw lock s j = 0.

(** The PAUSE instructions of [k] backoffs with jitter [j] each, run by the
    passes that see [retries] = [k - 1] down to 0. *)
Fixpoint backoff_budget (j : Z) (k : nat) : Z :=
  match k with
  | O => 0
  | S k' => Z.shiftl j (20 - Z.of_nat k') + backoff_budget j k'
  end.

(** ** Some concrete machines *)

(** No other thread stores anything; every XBEGIN starts a transaction. *)
Definition hw_quiet : Hardware :=
  {| hw_xbegin := fun _ => 4294967295;
     hw_rdtsc := fun _ => (0, 0);
     hw_env := fun _ m => m |}.

(** Every XBEGIN aborts for capacity, without the retry flag. *)
Definition hw_capacity : Hardware :=
  {| hw_xbegin := fun _ => RTE_XABORT_CAPACITY;
     hw_rdtsc := fun _ => (0, 0);
     hw_env := fun _ m => m |}.

(** Every XBEGIN aborts on a conflict, with the retry flag. *)
Definition hw_conflict : Hardware :=
  {| hw_xbegin := fun _ => Z.lor RTE_XABORT_CONFLICT RTE_XABORT_RETRY;
     hw_rdtsc := fun _ => (5, 0);
     hw_env := fun _ m => m |}.

(** Another thread takes the lock word at address 64 before every even
    load of this thread and frees it before every odd one. *)
Definition hw_handoff : Hardware :=
  {| hw_xbegin := fun _ => 4294967295;
     hw_rdtsc := fun _ => (0, 0);
     hw_env := fun k m a =>
       if a =? 64 then (if Nat.even k then 1 else 0) else m a |}.

(** Every XBEGIN aborts with the retry flag alone. *)
Definition hw_retry : Hardware :=
  {| hw_xbegin := fun _ => RTE_XABORT_RETRY;
     hw_rdtsc := fun _ => (0, 0);
     hw_env := fun _ m => m |}.

(** Memory with every word 0, and with every word 1. *)
Definition mem_free : Mem := fun _ => 0.
Definition mem_held : Mem := fun _ => 1.

(** Unfolds the projections of [Machine] and the steps that only rebuild
    the record. *)
Ltac fields :=
  cbn [mem loads xbegins rdtscs pauses in_tx trace fst snd
       pause_step log bodies app] in *.

(** ** Machine integers and status words: basic facts *)

Lemma int32_small (x : Z) : - 2 ^ 31 <= x < 2 ^ 31 -> int32 x = x.
Proof.
  intros H. unfold int32. rewrite Z.mod_small; lia.
Qed.

Lemma land7_range (x : Z) : 0 <= Z.land x 7 < 8.
Proof.
  change 7 with (Z.ones 3). rewrite Z.land_ones by lia.
  apply Z.mod_pos_bound. reflexivity.
Qed.

Lemma jitter_cases (tsc : Z) :
  jitter tsc = 1 \/ jitter tsc = 3 \/ jitter tsc = 5 \/ jitter tsc = 7.
Proof.
  unfold jitter. pose proof (land7_range tsc) as H.
  assert (C : Z.land tsc 7 = 0 \/ Z.land tsc 7 = 1 \/ Z.land tsc 7 = 2 \/
              Z.land tsc 7 = 3 \/ Z.land tsc 7 = 4 \/ Z.land tsc 7 = 5 \/
              Z.land tsc 7 = 6 \/ Z.land tsc 7 = 7) by lia.
  repeat (destruct C as [C | C]); rewrite C; vm_compute; tauto.
Qed.

(** The status of an explicit abort has bit 1 clear, the started value has
    it set. *)
Lemma xabort_status_not_started (code : Z) :
  xabort_status code <> RTE_XBEGIN_STARTED.
Proof.
  intros E. apply (f_equal (fun x => Z.testbit x 1)) in E.
  unfold xabort_status in E. rewrite Z.lor_spec in E.
  rewrite Z.shiftl_spec_low in E by lia.
  vm_compute in E. discriminate.
Qed.

Lemma xabort_status_transient :
  transient (xabort_status RTE_XABORT_LOCK_BUSY) = true.
Proof. reflexivity. Qed.

(** ** The union of rdtsc.c *)

Lemma le_value_bytes (n : nat) (x : Z) :
  le_value (le_bytes n x) = x mod 256 ^ Z.of_nat n.
Proof.
  revert x. induction n as [|n IH]; intros x.
  - simpl. now rewrite Z.mod_1_r.
  - cbn [le_bytes le_value]. rewrite IH.
    rewrite Nat2Z.inj_succ, Z.pow_succ_r by lia.
    rewrite Z.rem_mul_r; [reflexivity | lia | apply Z.pow_pos_nonneg; lia].
Qed.

Lemma le_value_app (a b : list Z) :
  le_value (a ++ b) = le_value a + 256 ^ Z.of_nat (length a) * le_value b.
Proof.
  induction a as [|x a IH].
  - cbn [app le_value length]. change (Z.of_nat 0) with 0.
    rewrite Z.pow_0_r. lia.
  - cbn [app le_value length]. rewrite IH, Nat2Z.inj_succ, Z.pow_succ_r by lia.
    ring.
Qed.

Lemma le_bytes_length (n : nat) (x : Z) : length (le_bytes n x) = n.
Proof.
  revert x. induction n as [|n IH]; intros x; simpl; [reflexivity|].
  now rewrite IH.
Qed.

Lemma tsc_64_store (eax edx : Z) :
  tsc_64 (store_lo_hi eax edx) = uint32 edx * 2 ^ 32 + uint32 eax.
Proof.
  unfold tsc_64, store_lo_hi. cbn [tsc_bytes].
  rewrite firstn_all2.
  2:{ rewrite length_app, !le_bytes_length. apply le_n. }
  rewrite le_value_app, !le_value_bytes, le_bytes_length.
  assert (B : forall y, 0 <= uint32 y < 2 ^ 32)
    by (intros y; apply Z.mod_pos_bound; reflexivity).
  change (256 ^ Z.of_nat 4) with (2 ^ 32).
  rewrite !Z.mod_small by apply B. ring.
Qed.

(** ** Memory and the other threads *)

Lemma env_run_add (hw : Hardware) (a b from : nat) (m : Mem) :
  env_run hw from (a + b) m = env_run hw (from + a) b (env_run hw from a m).
Proof.
  revert from m. induction a as [|a IH]; intros from m.
  - cbn [Nat.add env_run]. now rewrite Nat.add_0_r.
  - cbn [Nat.add env_run]. rewrite IH. f_equal. lia.
Qed.

Lemma next_read_shift (hw : Hardware) (lock : Z) (s s' : Machine) (d k : nat) :
  loads s' = (loads s + d)%nat ->
  mem s' = env_run hw (loads s) d (mem s) ->
  next_read hw lock s' k = next_read hw lock s (d + k).
Proof.
  intros HL HM. unfold next_read. rewrite HL, HM.
  replace (S (d + k)) with (d + S k)%nat by lia.
  now rewrite env_run_add.
Qed.

Lemma lock_released_shift (hw : Hardware) (lock : Z) (s s' : Machine) (d : nat) :
  loads s' = (loads s + d)%nat ->
  mem s' = env_run hw (loads s) d (mem s) ->
  lock_released hw lock s -> lock_released hw lock s'.
Proof.
  intros HL HM F k. destruct (F (d + k)%nat) as [j Hj].
  exists j. rewrite (next_read_shift hw lock s s' d) by assumption.
  now rewrite Nat.add_assoc.
Qed.

(** ** The pause loop *)

Lemma pause_iter (n : N) (s : Machine) :
  N.iter n pause_step s =
  mkMachine (mem s) (loads s) (xbegins s) (rdtscs s) (pauses s + n)
            (in_tx s) (trace s).
Proof.
  induction n as [|n IH] using N.peano_ind.
  - cbn [N.iter]. rewrite N.add_0_r. now destruct s.
  - rewrite N.iter_succ, IH. unfold pause_step. cbn.
    f_equal. lia.
Qed.

(** ** What only the other threads change *)

Lemma only_env_refl (hw : Hardware) (s : Machine) : only_env hw s s.
Proof.
  split; [apply le_n|]. now rewrite Nat.sub_diag.
Qed.

Lemma only_env_trans (hw : Hardware) (s1 s2 s3 : Machine) :
  only_env hw s1 s2 -> only_env hw s2 s3 -> only_env hw s1 s3.
Proof.
  intros [L1 M1] [L2 M2]. split; [lia|].
  rewrite M2, M1.
  replace (loads s3 - loads s1)%nat
    with ((loads s2 - loads s1) + (loads s3 - loads s2))%nat by lia.
  rewrite env_run_add. f_equal. lia.
Qed.

Lemma keeps_mem_same {A} (hw : Hardware) (m : M A) :
  (forall s, mem (snd (m s)) = mem s /\ loads (snd (m s)) = loads s) ->
  keeps_mem hw m.
Proof.
  intros H s. destruct (H s) as [HM HL]. split.
  - rewrite HL. apply le_n.
  - rewrite HM, HL, Nat.sub_diag. reflexivity.
Qed.

Lemma keeps_mem_bind {A B} (hw : Hardware) (m : M A) (k : A -> M B) :
  keeps_mem hw m -> (forall a, keeps_mem hw (k a)) ->
  keeps_mem hw (mbind m k).
Proof.
  intros Hm Hk s. unfold mbind. specialize (Hm s).
  destruct (m s) as [[a|] s1]; cbn [snd] in *.
  - eapply only_env_trans; [exact Hm | apply Hk].
  - exact Hm.
Qed.

Lemma keeps_mem_load (hw : Hardware) (addr : Z) : keeps_mem hw (load hw addr).
Proof.
  intros s. unfold load, only_env. cbn [snd mem loads].
  split; [lia|].
  replace (S (loads s) - loads s)%nat with 1%nat by lia. reflexivity.
Qed.

Lemma keeps_mem_wait_lock (hw : Hardware) (fuel : nat) (lock : Z) :
  keeps_mem hw (wait_lock hw fuel lock).
Proof.
  induction fuel as [|fuel IH]; cbn [wait_lock].
  - now apply keeps_mem_same.
  - apply keeps_mem_bind; [apply keeps_mem_load|].
    intros v. destruct (v =? 0).
    + now apply keeps_mem_same.
    + apply keeps_mem_bind; [now apply keeps_mem_same | intros _; exact IH].
Qed.

Lemma keeps_mem_backoff (hw : Hardware) (retries : Z) :
  keeps_mem hw (backoff hw retries).
Proof.
  apply keeps_mem_same. intros s.
  unfold backoff, mbind, rte_rdtsc, pause_loop.
  destruct (hw_rdtsc hw (rdtscs s)) as [eax edx]. cbn [snd].
  rewrite pause_iter. cbn. auto.
Qed.

Lemma keeps_mem_abort_path (hw : Hardware) (fuel : nat) (lock retries status : Z) :
  keeps_mem hw (abort_path hw fuel lock retries status).
Proof.
  unfold abort_path. apply keeps_mem_bind; [apply keeps_mem_wait_lock|].
  intros _. destruct (transient status).
  - apply keeps_mem_bind; [apply keeps_mem_backoff|].
    intros _. now apply keeps_mem_same.
  - destruct (_ =? 0); now apply keeps_mem_same.
Qed.

Lemma keeps_mem_from_line77 (hw : Hardware) (fuel k : nat) (lock retries status : Z) :
  keeps_mem hw (from_line77 hw fuel k lock retries status).
Proof.
  revert status. induction k as [|k IH]; intros status; cbn [from_line77];
    (destruct (RTE_XBEGIN_STARTED =? status); [|apply keeps_mem_abort_path]);
    (apply keeps_mem_bind; [apply keeps_mem_load|]);
    intros v; (destruct (negb (v =? 0)); [|now apply keeps_mem_same]);
    (apply keeps_mem_bind; [now apply keeps_mem_same|]);
    intros [st|]; try (now apply keeps_mem_same).
  apply IH.
Qed.

Lemma keeps_mem_loop_body (hw : Hardware) (fuel : nat) (lock retries : Z) :
  keeps_mem hw (loop_body hw fuel lock retries).
Proof.
  intros s. unfold loop_body.
  assert (K : keeps_mem hw
                (status <- rte_xbegin hw ;;
                 from_line77 hw fuel fuel lock retries status)).
  { apply keeps_mem_bind; [now apply keeps_mem_same|].
    intros st. apply keeps_mem_from_line77. }
  exact (K (log (EvBody retries) s)).
Qed.

Lemma keeps_mem_while_retries (hw : Hardware) (fuel n : nat) (lock retries : Z) :
  keeps_mem hw (while_retries hw fuel n lock retries).
Proof.
  revert retries. induction n as [|n IH]; intros retries; cbn [while_retries].
  - now apply keeps_mem_same.
  - destruct (retries =? 0); [now apply keeps_mem_same|].
    apply keeps_mem_bind; [apply keeps_mem_loop_body|].
    intros [v| |]; try (now apply keeps_mem_same). apply IH.
Qed.

(** ** The busy-wait *)

Lemma attempts_cons_out (e : Event) (tr : list Event) :
  in_attempt e = false -> attempts (e :: tr) = attempts tr.
Proof.
  intros H. unfold attempts. cbn [filter]. now rewrite H.
Qed.

Lemma attempts_cons_in (e : Event) (tr : list Event) :
  in_attempt e = true -> attempts (e :: tr) = attempts tr ++ [e].
Proof.
  intros H. unfold attempts. cbn [filter]. now rewrite H.
Qed.

Lemma wait_lock_ends (hw : Hardware) (lock : Z) (j : nat) :
  forall s, next_read hw lock s j = 0 ->
  exists i s', (i <= j)%nat /\ waited hw lock s s' i /\
    forall fuel, (j < fuel)%nat -> wait_lock hw fuel lock s = (Done tt, s').
Proof.
  induction j as [|j IH]; intros s H0.
  - exists 0%nat. eexists. split; [apply le_n|]. split.
    2:{ intros [|fuel] Hf; [lia|]. cbn [wait_lock]. unfold mbind, load.
        unfold next_read in H0. cbn [env_run] in H0. rewrite H0.
        fields. reflexivity. }
    unfold waited; fields. repeat split; try assumption; try lia.
    intros T. rewrite T. now apply attempts_cons_out.
  - destruct (Z.eq_dec (next_read hw lock s 0) 0) as [E|E].
    + exists 0%nat. eexists. split; [lia|]. split.
      2:{ intros [|fuel] Hf; [lia|]. cbn [wait_lock]. unfold mbind, load.
          unfold next_read in E. cbn [env_run] in E. rewrite E.
          fields. reflexivity. }
      unfold waited; fields. repeat split; try assumption; try lia.
      intros T. rewrite T. now apply attempts_cons_out.
    + set (s1 := pause_step (snd (load hw lock s))).
      assert (S1 : forall k, next_read hw lock s1 k = next_read hw lock s (1 + k))
        by (intros k; apply next_read_shift; subst s1; unfold load; fields; [lia | reflexivity]).
      destruct (IH s1) as (i & s' & Hi & W & Run).
      { rewrite S1. exact H0. }
      exists (S i), s'. split; [lia|]. split.
      * destruct W as (W0 & W1 & W2 & W3 & W4 & W5 & W6 & W7 & W8).
        unfold waited. rewrite S1 in W0.
        repeat split; try assumption.
        -- rewrite W1. subst s1; unfold load; fields. lia.
        -- rewrite W5. subst s1; unfold load; fields. lia.
        -- intros T. rewrite W8 by exact T. subst s1; unfold load; fields.
           rewrite T. now apply attempts_cons_out.
      * intros [|fuel] Hf; [lia|]. cbn [wait_lock]. unfold mbind at 1.
        unfold load at 1. unfold next_read in E. cbn [env_run] in E.
        apply Z.eqb_neq in E. rewrite E.
        unfold mbind, pause. apply Run. lia.
Qed.

(** While every load finds the lock word taken the busy-wait does not
    end, whatever the fuel. *)
Lemma wait_lock_spins (hw : Hardware) (lock : Z) (fuel : nat) :
  forall s, (forall j, next_read hw lock s j <> 0) ->
  exists s', wait_lock hw fuel lock s = (OutOfFuel, s').
Proof.
  induction fuel as [|fuel IH]; intros s H.
  - eexists. reflexivity.
  - cbn [wait_lock]. unfold mbind at 1. unfold load at 1.
    pose proof (H 0%nat) as E. unfold next_read in E. cbn [env_run] in E.
    apply Z.eqb_neq in E. rewrite E. unfold mbind, pause.
    apply IH. intros j.
    rewrite (next_read_shift hw lock s _ 1 j); fields; [apply H | lia | reflexivity].
Qed.

(** ** The backoff *)

Lemma backoff_runs (hw : Hardware) (retries : Z) (s : Machine) :
  backoff hw retries s =
  (Done tt,
   mkMachine (mem s) (loads s) (xbegins s) (S (rdtscs s))
             (pauses s + Z.to_N (pause_count (next_tsc hw s) retries))
             (in_tx s) (EvRdtsc (next_tsc hw s) :: trace s)).
Proof.
  unfold backoff, mbind, rte_rdtsc, pause_loop, next_tsc, __dpdk_rdtsc.
  destruct (hw_rdtsc hw (rdtscs s)) as [eax edx]. fields.
  now rewrite pause_iter.
Qed.

Lemma try_count_exact (retries : Z) :
  0 <= retries < 20 -> try_count retries = 20 - retries.
Proof.
  intros H. unfold try_count, RTE_RTM_MAX_RETRIES. apply int32_small. lia.
Qed.

Lemma jitter_shift_bounds (tsc t : Z) :
  0 <= t <= 20 -> 0 < Z.shiftl (jitter tsc) t < 2 ^ 31.
Proof.
  intros H. rewrite Z.shiftl_mul_pow2 by lia.
  assert (P : 0 < 2 ^ t <= 2 ^ 20).
  { split; [apply Z.pow_pos_nonneg; lia | apply Z.pow_le_mono_r; lia]. }
  change (2 ^ 20) with 1048576 in P. change (2 ^ 31) with 2147483648.
  destruct (jitter_cases tsc) as [J | [J | [J | J]]]; rewrite J; lia.
Qed.

Lemma pause_count_exact (tsc retries : Z) :
  0 <= retries < 20 ->
  pause_count tsc retries = Z.shiftl (jitter tsc) (20 - retries).
Proof.
  intros H. unfold pause_count. rewrite try_count_exact by exact H.
  apply int32_small. pose proof (jitter_shift_bounds tsc (20 - retries)). lia.
Qed.

(** ** The path of an aborted attempt *)

Lemma abort_path_after_wait (hw : Hardware) (fuel : nat)
    (lock retries status : Z) (s s1 : Machine) :
  wait_lock hw fuel lock s = (Done tt, s1) ->
  abort_path hw fuel lock retries status s =
  if transient status then (Done CContinue, snd (backoff hw retries s1))
  else if Z.land status RTE_XABORT_RETRY =? 0 then (Done CBreak, s1)
  else (Done CContinue, s1).
Proof.
  intros W. unfold abort_path, mbind. rewrite W.
  destruct (transient status).
  - rewrite backoff_runs. reflexivity.
  - destruct (_ =? 0); reflexivity.
Qed.

Lemma abort_path_no_return (hw : Hardware) (fuel : nat)
    (lock retries status : Z) (s s' : Machine) (c : Ctl) :
  abort_path hw fuel lock retries status s = (Done c, s') ->
  c = CBreak \/ c = CContinue.
Proof.
  unfold abort_path, mbind.
  destruct (wait_lock hw fuel lock s) as [[[]|] s1]; [|discriminate].
  destruct (transient status).
  - rewrite backoff_runs. unfold mret. intros E. inversion E. now right.
  - destruct (_ =? 0); unfold mret; intros E; inversion E; auto.
Qed.

Lemma from_line77_failed (hw : Hardware) (fuel k : nat)
    (lock retries status : Z) :
  status <> RTE_XBEGIN_STARTED ->
  from_line77 hw fuel k lock retries status =
  abort_path hw fuel lock retries status.
Proof.
  intros H. assert (E : (RTE_XBEGIN_STARTED =? status) = false)
    by (apply Z.eqb_neq; congruence).
  destruct k; cbn [from_line77]; now rewrite E.
Qed.

(** A pass returns only from line 81, behind a load that found the lock
    word free inside the transaction XBEGIN has just started. *)
Lemma from_line77_return (hw : Hardware) (fuel k : nat)
    (lock retries status v : Z) (s s' : Machine) :
  in_tx s = (RTE_XBEGIN_STARTED =? status) ->
  from_line77 hw fuel k lock retries status s = (Done (CReturn v), s') ->
  v = 1 /\ status = RTE_XBEGIN_STARTED /\ in_tx s' = true /\
  trace s' = EvLoad lock 0 true :: trace s.
Proof.
  intros T R.
  destruct (Z.eq_dec status RTE_XBEGIN_STARTED) as [E|E].
  2:{ rewrite from_line77_failed in R by exact E.
      apply abort_path_no_return in R. destruct R; discriminate. }
  subst status. rewrite Z.eqb_refl in T.
  assert (R' :
    (v0 <- load hw lock ;;
     if negb (v0 =? 0) then
       r <- rte_xabort RTE_XABORT_LOCK_BUSY ;;
       match r with
       | Some status' =>
           match k with
           | O => out_of_fuel
           | S k' => from_line77 hw fuel k' lock retries status'
           end
       | None => mret (CReturn 1)
       end
     else mret (CReturn 1)) s = (Done (CReturn v), s')).
  { destruct k; exact R. }
  clear R. unfold mbind at 1 in R'. unfold load at 1 in R'.
  destruct (hw_env hw (loads s) (mem s) lock =? 0) eqn:Z0; cbn [negb] in R'.
  - unfold mret in R'. inversion R'; subst. fields.
    apply Z.eqb_eq in Z0. rewrite Z0, T. auto.
  - unfold mbind, rte_xabort in R'. fields. rewrite T in R'.
    destruct k as [|k']; [discriminate|].
    rewrite from_line77_failed in R' by apply xabort_status_not_started.
    apply abort_path_no_return in R'. destruct R'; discriminate.
Qed.

Lemma loop_body_return (hw : Hardware) (fuel : nat)
    (lock retries v : Z) (s s' : Machine) :
  loop_body hw fuel lock retries s = (Done (CReturn v), s') ->
  v = 1 /\ in_tx s' = true /\
  trace s' = EvLoad lock 0 true :: EvXbegin RTE_XBEGIN_STARTED
               :: EvBody retries :: trace s.
Proof.
  unfold loop_body. unfold mbind at 1. unfold rte_xbegin at 1. intros R.
  apply from_line77_return in R; [|reflexivity].
  destruct R as (V & E & T & Tr). fields. rewrite Tr, E. auto.
Qed.

(** The busy-wait executes no XBEGIN and no RDTSC and starts no pass. *)
Lemma wait_lock_counters (hw : Hardware) (lock : Z) (fuel : nat) :
  forall s s', wait_lock hw fuel lock s = (Done tt, s') ->
  xbegins s' = xbegins s /\ rdtscs s' = rdtscs s /\
  in_tx s' = in_tx s /\ bodies (trace s') = bodies (trace s).
Proof.
  induction fuel as [|f IH]; intros t t' Ht; cbn [wait_lock] in Ht.
  - discriminate.
  - unfold mbind at 1 in Ht. unfold load at 1 in Ht.
    destruct (hw_env hw (loads t) (mem t) lock =? 0).
    + unfold mret in Ht. inversion Ht; subst. fields. auto.
    + unfold mbind, pause in Ht. apply IH in Ht. fields. exact Ht.
Qed.

(** One pass whose XBEGIN delivers an abort status. *)
Lemma loop_body_aborted (hw : Hardware) (fuel : nat)
    (lock retries : Z) (s : Machine) :
  let s0 := snd (rte_xbegin hw (log (EvBody retries) s)) in
  let status := uint32 (hw_xbegin hw (xbegins s)) in
  status <> RTE_XBEGIN_STARTED ->
  loop_body hw fuel lock retries s =
  abort_path hw fuel lock retries status s0.
Proof.
  intros s0 status H. unfold loop_body. unfold mbind at 1.
  unfold rte_xbegin at 1. fields.
  now rewrite from_line77_failed by exact H.
Qed.

(** ** Termination *)

Lemma abort_path_ends (hw : Hardware) (lock retries status : Z) (s : Machine) (j : nat) :
  next_read hw lock s j = 0 ->
  exists i s1, (i <= j)%nat /\ waited hw lock s s1 i /\
    forall fuel, (j < fuel)%nat ->
      abort_path hw fuel lock retries status s =
      if transient status then (Done CContinue, snd (backoff hw retries s1))
      else if Z.land status RTE_XABORT_RETRY =? 0 then (Done CBreak, s1)
      else (Done CContinue, s1).
Proof.
  intros H. destruct (wait_lock_ends hw lock j s H) as (i & s1 & Hi & W & Run).
  exists i, s1. split; [exact Hi|]. split; [exact W|].
  intros fuel Hf. apply abort_path_after_wait. now apply Run.
Qed.

Lemma lock_released_waited (hw : Hardware) (lock : Z) (s s1 : Machine) (i : nat) :
  waited hw lock s s1 i -> lock_released hw lock s -> lock_released hw lock s1.
Proof.
  intros (_ & L & Me & _). now apply lock_released_shift with (d := S i).
Qed.

Lemma lock_released_backoff (hw : Hardware) (lock retries : Z) (s : Machine) :
  lock_released hw lock s -> lock_released hw lock (snd (backoff hw retries s)).
Proof.
  rewrite backoff_runs. fields.
  apply lock_released_shift with (d := 0%nat); fields; [lia | reflexivity].
Qed.

Lemma pass_done_aborted (hw : Hardware) (lock retries : Z) (s0 s s1 : Machine) (i : nat) :
  xbegins s0 = S (xbegins s) ->
  bodies (trace s0) = bodies (trace s) ++ [retries] ->
  lock_released hw lock s0 ->
  waited hw lock s0 s1 i ->
  pass_done hw lock retries s s1 /\
  pass_done hw lock retries s (snd (backoff hw retries s1)).
Proof.
  intros X B F W.
  pose proof (lock_released_waited hw lock s0 s1 i W F) as F1.
  destruct W as (_ & _ & _ & WX & _ & _ & _ & WB & _).
  assert (P1 : pass_done hw lock retries s s1).
  { split; [congruence|]. split; [congruence | exact F1]. }
  split; [exact P1|].
  destruct P1 as (P1 & P2 & P3). split; [|split].
  - rewrite backoff_runs. fields. exact P1.
  - rewrite backoff_runs. fields. exact P2.
  - now apply lock_released_backoff.
Qed.

Lemma loop_body_started (hw : Hardware) (fuel : nat)
    (lock retries : Z) (s : Machine) :
  uint32 (hw_xbegin hw (xbegins s)) = RTE_XBEGIN_STARTED ->
  loop_body hw fuel lock retries s =
  from_line77 hw fuel fuel lock retries RTE_XBEGIN_STARTED
    (mkMachine (mem s) (loads s) (S (xbegins s)) (rdtscs s) (pauses s) true
               (EvXbegin RTE_XBEGIN_STARTED :: EvBody retries :: trace s)).
Proof.
  intros E. unfold loop_body. unfold mbind at 1. unfold rte_xbegin at 1.
  fields. rewrite E, Z.eqb_refl. reflexivity.
Qed.

(** Line 78 finds the lock word free: the pass returns 1. *)
Lemma from_line77_free (hw : Hardware) (fuel k : nat)
    (lock retries : Z) (s : Machine) :
  next_read hw lock s 0 = 0 ->
  from_line77 hw fuel k lock retries RTE_XBEGIN_STARTED s =
  (Done (CReturn 1), snd (load hw lock s)).
Proof.
  intros Z0. unfold next_read in Z0. cbn [env_run] in Z0.
  apply Z.eqb_eq in Z0.
  destruct k; cbn [from_line77]; rewrite Z.eqb_refl; unfold mbind at 1;
    unfold load at 1; rewrite Z0; reflexivity.
Qed.

(** Line 78 finds the lock word taken inside the transaction: XABORT
    rolls back and the pass goes on at line 84 with the explicit status. *)
Lemma from_line77_taken (hw : Hardware) (fuel k : nat)
    (lock retries : Z) (s : Machine) :
  next_read hw lock s 0 <> 0 ->
  in_tx s = true ->
  from_line77 hw fuel (S k) lock retries RTE_XBEGIN_STARTED s =
  abort_path hw fuel lock retries (xabort_status RTE_XABORT_LOCK_BUSY)
    (snd (rte_xabort RTE_XABORT_LOCK_BUSY (snd (load hw lock s)))).
Proof.
  intros NZ T. unfold next_read in NZ. cbn [env_run] in NZ.
  apply Z.eqb_neq in NZ.
  cbn [from_line77]. rewrite Z.eqb_refl. unfold mbind at 1.
  unfold load at 1. rewrite NZ. cbn [negb]. unfold mbind at 1.
  unfold rte_xabort at 1. fields. rewrite T.
  rewrite from_line77_failed by apply xabort_status_not_started.
  unfold rte_xabort, load. fields. rewrite T. reflexivity.
Qed.

Lemma loop_body_ends (hw : Hardware) (lock retries : Z) (s : Machine) :
  lock_released hw lock s ->
  exists N c s',
    (forall fuel, (N <= fuel)%nat ->
       loop_body hw fuel lock retries s = (Done c, s')) /\
    (c = CReturn 1 \/ c = CBreak \/ c = CContinue) /\
    pass_done hw lock retries s s'.
Proof.
  intros F.
  set (status := uint32 (hw_xbegin hw (xbegins s))).
  destruct (Z.eq_dec status RTE_XBEGIN_STARTED) as [E|NE].
  - (* the transaction starts *)
    set (s0 := mkMachine (mem s) (loads s) (S (xbegins s)) (rdtscs s)
                 (pauses s) true
                 (EvXbegin RTE_XBEGIN_STARTED :: EvBody retries :: trace s)).
    set (sl := snd (load hw lock s0)).
    assert (Fl : lock_released hw lock sl).
    { apply lock_released_shift with (s := s) (d := 1%nat); subst sl s0;
        unfold load; fields; [lia | reflexivity | exact F]. }
    destruct (Z.eq_dec (next_read hw lock s0 0) 0) as [Z0|NZ].
    + exists 1%nat, (CReturn 1), sl. split; [|split; [auto|]].
      * intros fuel Hf. rewrite loop_body_started by exact E.
        now apply from_line77_free.
      * split; [reflexivity|]. split; [reflexivity | exact Fl].
    + set (sa := snd (rte_xabort RTE_XABORT_LOCK_BUSY sl)).
      assert (Fa : lock_released hw lock sa).
      { apply lock_released_shift with (s := sl) (d := 0%nat); subst sa;
          unfold rte_xabort; fields; [lia | reflexivity | exact Fl]. }
      destruct (Fa 0%nat) as [j Hj]. cbn [Nat.add] in Hj.
      destruct (abort_path_ends hw lock retries
                  (xabort_status RTE_XABORT_LOCK_BUSY) sa j Hj)
        as (i & s1 & Hi & W & Run).
      rewrite xabort_status_transient in Run.
      exists (S j), CContinue, (snd (backoff hw retries s1)).
      split; [|split; [auto|]].
      * intros [|fuel] Hf; [lia|]. rewrite loop_body_started by exact E.
        rewrite from_line77_taken by (exact NZ || reflexivity).
        apply Run. lia.
      * eapply pass_done_aborted with (s0 := sa); try eassumption; reflexivity.
  - (* XBEGIN delivers an abort status *)
    set (s0 := snd (rte_xbegin hw (log (EvBody retries) s))).
    assert (F0 : lock_released hw lock s0).
    { apply lock_released_shift with (s := s) (d := 0%nat); subst s0;
        unfold rte_xbegin; fields; [lia | reflexivity | exact F]. }
    destruct (F0 0%nat) as [j Hj]. cbn [Nat.add] in Hj.
    destruct (abort_path_ends hw lock retries status s0 j Hj)
      as (i & s1 & Hi & W & Run).
    destruct (pass_done_aborted hw lock retries s0 s s1 i) as [P1 P2];
      try assumption; try reflexivity.
    destruct (transient status) eqn:TT;
      [| destruct (Z.land status RTE_XABORT_RETRY =? 0) eqn:RT].
    + exists (S j), CContinue, (snd (backoff hw retries s1)).
      split; [|split; [auto | exact P2]].
      intros fuel Hf. rewrite loop_body_aborted by exact NE.
      fold status. fold s0. apply Run. lia.
    + exists (S j), CBreak, s1. split; [|split; [auto | exact P1]].
      intros fuel Hf. rewrite loop_body_aborted by exact NE.
      fold status. fold s0. apply Run. lia.
    + exists (S j), CContinue, s1. split; [|split; [auto | exact P1]].
      intros fuel Hf. rewrite loop_body_aborted by exact NE.
      fold status. fold s0. apply Run. lia.
Qed.

Lemma int32_pred_of_nat (k : nat) :
  (k <= 20)%nat -> int32 (Z.of_nat (S k) - 1) = Z.of_nat k.
Proof.
  intros H. rewrite Nat2Z.inj_succ.
  replace (Z.succ (Z.of_nat k) - 1) with (Z.of_nat k) by lia.
  apply int32_small. change (2 ^ 31) with 2147483648. lia.
Qed.

Lemma countdown_succ (k p : nat) :
  Z.of_nat k :: countdown (Z.of_nat k) p = countdown (Z.of_nat (S k)) (S p).
Proof.
  cbn [countdown].
  replace (Z.of_nat (S k) - 1) with (Z.of_nat k) by lia. reflexivity.
Qed.

(** The loop with [k] retries left ends after at most [k] passes. *)
Lemma while_retries_ends (hw : Hardware) (lock : Z) (k : nat) :
  (k <= 20)%nat ->
  forall s, lock_released hw lock s ->
  exists N v s',
    (forall fuel n, (N <= fuel)%nat -> (N <= n)%nat ->
       while_retries hw fuel n lock (Z.of_nat k) s = (Done v, s')) /\
    (v = 1 \/ v = 0) /\
    (xbegins s <= xbegins s' <= xbegins s + k)%nat /\
    bodies (trace s') =
      bodies (trace s) ++ countdown (Z.of_nat k) (xbegins s' - xbegins s).
Proof.
  induction k as [|k IH]; intros K s F.
  - exists 1%nat, 0, s. split; [|split; [auto | split; [lia|]]].
    + intros fuel [|n] _ Hn; [lia|]. reflexivity.
    + rewrite Nat.sub_diag. cbn [countdown]. now rewrite app_nil_r.
  - destruct (loop_body_ends hw lock (Z.of_nat k) s F)
      as (N1 & c & s1 & Run1 & Hc & X1 & B1 & F1).
    assert (NZ : (Z.of_nat (S k) =? 0) = false) by (apply Z.eqb_neq; lia).
    assert (Step : forall fuel n, (N1 <= fuel)%nat ->
              while_retries hw fuel (S n) lock (Z.of_nat (S k)) s =
              match c with
              | CReturn v => (Done v, s1)
              | CBreak => (Done 0, s1)
              | CContinue => while_retries hw fuel n lock (Z.of_nat k) s1
              end).
    { intros fuel n Hf. cbn [while_retries]. rewrite NZ.
      rewrite int32_pred_of_nat by lia. unfold mbind.
      rewrite Run1 by exact Hf. destruct c; reflexivity. }
    assert (One : bodies (trace s1) =
                  bodies (trace s) ++
                  countdown (Z.of_nat (S k)) (xbegins s1 - xbegins s)).
    { rewrite B1, X1. replace (S (xbegins s) - xbegins s)%nat with 1%nat by lia.
      rewrite <- countdown_succ. reflexivity. }
    destruct Hc as [Hc | [Hc | Hc]]; subst c.
    + exists (S N1), 1, s1. split; [|split; [auto | split; [lia | exact One]]].
      intros fuel [|n] Hf Hn; [lia|]. apply Step. lia.
    + exists (S N1), 0, s1. split; [|split; [auto | split; [lia | exact One]]].
      intros fuel [|n] Hf Hn; [lia|]. apply Step. lia.
    + destruct (IH ltac:(lia) s1 F1) as (N2 & v & s' & Run2 & Hv & X2 & B2).
      exists (S (Nat.max N1 N2)), v, s'.
      split; [|split; [exact Hv | split; [lia|]]].
      * intros fuel [|n] Hf Hn; [lia|]. rewrite Step by lia.
        apply Run2; lia.
      * rewrite B2, B1, <- app_assoc. f_equal.
        replace (xbegins s' - xbegins s)%nat
          with (S (xbegins s' - xbegins s1)) by lia.
        rewrite <- countdown_succ. reflexivity.
Qed.

Lemma env_run_quiet (from count : nat) (m : Mem) :
  env_run hw_quiet from count m = m.
Proof.
  revert from. induction count as [|c IH]; intros from; cbn [env_run];
    [reflexivity | apply IH].
Qed.

(** ** The lock word taken at every attempt *)

Lemma while_retries_busy (hw : Hardware) (lock : Z) (k : nat) :
  (k <= 20)%nat ->
  (forall i, uint32 (hw_xbegin hw i) = RTE_XBEGIN_STARTED) ->
  forall s,
  taken_at_attempts hw lock s ->
  lock_released hw lock s ->
  exists N s' vs,
    (forall fuel n, (N <= fuel)%nat -> (N <= n)%nat ->
       while_retries hw fuel n lock (Z.of_nat k) s = (Done 0, s')) /\
    xbegins s' = (xbegins s + k)%nat /\
    rdtscs s' = (rdtscs s + k)%nat /\
    length vs = k /\
    Forall (fun v => v <> 0) vs /\
    attempts (trace s') =
      attempts (trace s) ++ busy_attempts lock (Z.of_nat k) vs.
Proof.
  intros K X. induction k as [|k IH]; intros s [T0 TA] F.
  - exists 1%nat, s, []. split; [|repeat split].
    + intros fuel [|n] _ Hn; [lia|]. reflexivity.
    + lia.
    + lia.
    + constructor.
    + cbn [busy_attempts]. now rewrite app_nil_r.
  - set (r := Z.of_nat k).
    set (s0 := mkMachine (mem s) (loads s) (S (xbegins s)) (rdtscs s)
                 (pauses s) true
                 (EvXbegin RTE_XBEGIN_STARTED :: EvBody r :: trace s)).
    set (sa := snd (rte_xabort RTE_XABORT_LOCK_BUSY (snd (load hw lock s0)))).
    set (v := next_read hw lock s 0).
    assert (Sa : forall j, next_read hw lock sa j = next_read hw lock s (1 + j)).
    { intros j. apply next_read_shift; subst sa s0; unfold rte_xabort, load;
        fields; [lia | reflexivity]. }
    destruct (F 1%nat) as [j Hj]. rewrite <- Sa in Hj.
    destruct (abort_path_ends hw lock r
                (xabort_status RTE_XABORT_LOCK_BUSY) sa j Hj)
      as (i & s1 & Hi & W & Run).
    rewrite xabort_status_transient in Run.
    set (s2 := snd (backoff hw r s1)) in *.
    destruct W as (W0 & W1 & W2 & W3 & W4 & W5 & W6 & W7 & W8).
    assert (S2 : forall j, next_read hw lock s2 j
                           = next_read hw lock s (S (S i) + j)).
    { intros j'. apply next_read_shift.
      - subst s2. rewrite backoff_runs. fields. rewrite W1.
        subst sa s0; unfold rte_xabort, load; fields. lia.
      - subst s2. rewrite backoff_runs. fields. rewrite W2.
        subst sa s0; unfold rte_xabort, load; fields. reflexivity. }
    assert (Body : forall fuel, (S j <= fuel)%nat ->
              loop_body hw fuel lock r s = (Done CContinue, s2)).
    { intros [|fuel] Hf; [lia|]. rewrite loop_body_started by apply X.
      rewrite from_line77_taken by (exact T0 || reflexivity).
      apply Run. lia. }
    destruct (IH ltac:(lia) s2) as (N2 & s' & vs & Run2 & X2 & R2 & L2 & V2 & A2).
    { split.
      - rewrite S2, Nat.add_0_r. apply TA. rewrite Sa in W0. exact W0.
      - intros j'. rewrite !S2. rewrite Nat.add_succ_r. apply TA. }
    { subst s2. apply lock_released_backoff.
      apply lock_released_shift with (s := s) (d := S (S i)).
      - rewrite W1. subst sa s0; unfold rte_xabort, load; fields. lia.
      - rewrite W2. subst sa s0; unfold rte_xabort, load; fields. reflexivity.
      - exact F. }
    exists (S (Nat.max j N2)), s', (v :: vs).
    split; [|repeat split].
    + intros fuel [|n] Hf Hn; [lia|]. cbn [while_retries].
      assert (NZ : (Z.of_nat (S k) =? 0) = false) by (apply Z.eqb_neq; lia).
      rewrite NZ, int32_pred_of_nat by lia. unfold mbind. fold r.
      rewrite Body by lia. apply Run2; lia.
    + rewrite X2. subst s2. rewrite backoff_runs. fields. rewrite W3.
      subst sa s0; unfold rte_xabort, load; fields. lia.
    + rewrite R2. subst s2. rewrite backoff_runs. fields. rewrite W4.
      subst sa s0; unfold rte_xabort, load; fields. lia.
    + cbn [length]. now rewrite L2.
    + constructor; [exact T0 | exact V2].
    + rewrite A2. subst s2. rewrite backoff_runs. fields.
      rewrite attempts_cons_out by reflexivity.
      rewrite W8 by reflexivity.
      subst sa s0; unfold rte_xabort, load; fields.
      rewrite !attempts_cons_in by reflexivity.
      cbn [busy_attempts].
      replace (Z.of_nat (S k) - 1) with r by (subst r; lia).
      fold v. rewrite <- !app_assoc. reflexivity.
Qed.

Lemma env_run_handoff (c from : nat) (m : Mem) :
  env_run hw_handoff from (S c) m 64 = if Nat.even (from + c) then 1 else 0.
Proof.
  revert from m. induction c as [|c IH]; intros from m.
  - cbn [env_run hw_handoff hw_env]. rewrite Z.eqb_refl, Nat.add_0_r.
    reflexivity.
  - change (env_run hw_handoff from (S (S c)) m)
      with (env_run hw_handoff (S from) (S c) (hw_env hw_handoff from m)).
    rewrite IH. now rewrite Nat.add_succ_r.
Qed.

Lemma next_read_handoff (m : Mem) (j : nat) :
  next_read hw_handoff 64 (boot m) j = if Nat.even j then 1 else 0.
Proof.
  unfold next_read, boot. fields. now rewrite env_run_handoff.
Qed.

(** ** The claims *)

(** C1.  When the first XBEGIN starts a transaction and the load inside
    it finds the lock word 0, [rte_try_tm] returns 1.  The final machine is
    given in full: one XBEGIN, no XABORT, one load, no RDTSC and no PAUSE,
    and a single pass of the loop (it saw [retries] = 19), so no attempt was
    repeated. *)
Theorem try_tm_free_lock_enters (hw : Hardware) (fuel : nat) (lock : Z) (m : Mem) :
  (0 < fuel)%nat ->
  uint32 (hw_xbegin hw 0) = RTE_XBEGIN_STARTED ->
  next_read hw lock (boot m) 0 = 0 ->
  rte_try_tm hw fuel lock (boot m) =
  (Done 1,
   mkMachine (hw_env hw 0 m) 1 1 0 0 true
             [EvLoad lock 0 true; EvXbegin RTE_XBEGIN_STARTED; EvBody 19]).
Proof.
  intros F X L. destruct fuel as [|fuel]; [lia|].
  unfold rte_try_tm. cbn [while_retries].
  change (RTE_RTM_MAX_RETRIES =? 0) with false. cbv iota.
  change (int32 (RTE_RTM_MAX_RETRIES - 1)) with 19.
  unfold mbind at 1. unfold loop_body. unfold mbind at 1.
  unfold rte_xbegin at 1. unfold boot. fields. rewrite X.
  cbn [from_line77]. rewrite Z.eqb_refl.
  unfold mbind at 1. unfold load at 1. fields.
  unfold next_read, boot in L. cbn [env_run loads mem] in L. rewrite L.
  reflexivity.
Qed.

Lemma try_tm_free_lock_enters_witness :
  (0 < 1)%nat /\
  uint32 (hw_xbegin hw_quiet 0) = RTE_XBEGIN_STARTED /\
  next_read hw_quiet 64 (boot mem_free) 0 = 0 /\
  rte_try_tm hw_quiet 1 64 (boot mem_free) =
  (Done 1,
   mkMachine (hw_env hw_quiet 0 mem_free) 1 1 0 0 true
             [EvLoad 64 0 true; EvXbegin RTE_XBEGIN_STARTED; EvBody 19]).
Proof.
  split; [lia|]. split; [reflexivity|]. split; [reflexivity|].
  apply (try_tm_free_lock_enters hw_quiet 1 64 mem_free);
    [lia | reflexivity | reflexivity].
Defined.

(** C2.  When the lock word is free again and again, so that every
    busy-wait ends, [rte_try_tm] returns with any sufficient fuel, whatever
    the XBEGINs deliver: the result is 1 or 0, at most 20 XBEGINs were
    executed, and the passes saw [retries] = 19, 18, ... in turn, one
    decrement per pass taken before the pass runs. *)
Theorem try_tm_terminates (hw : Hardware) (lock : Z) (m : Mem) :
  lock_released hw lock (boot m) ->
  exists N v s',
    (forall fuel, (N <= fuel)%nat ->
       rte_try_tm hw fuel lock (boot m) = (Done v, s')) /\
    (v = 1 \/ v = 0) /\
    (xbegins s' <= 20)%nat /\
    bodies (trace s') = countdown RTE_RTM_MAX_RETRIES (xbegins s').
Proof.
  intros F.
  destruct (while_retries_ends hw lock 20 (le_n 20) (boot m) F)
    as (N & v & s' & Run & Hv & X & B).
  exists N, v, s'. split; [|split; [exact Hv | split]].
  - intros fuel Hf. unfold rte_try_tm. now apply Run.
  - unfold boot in X. fields. lia.
  - rewrite B. unfold boot. fields. now rewrite Nat.sub_0_r.
Qed.

Lemma try_tm_terminates_witness :
  lock_released hw_quiet 64 (boot mem_free) /\
  exists N v s',
    (forall fuel, (N <= fuel)%nat ->
       rte_try_tm hw_quiet fuel 64 (boot mem_free) = (Done v, s')) /\
    (v = 1 \/ v = 0) /\
    (xbegins s' <= 20)%nat /\
    bodies (trace s') = countdown RTE_RTM_MAX_RETRIES (xbegins s').
Proof.
  assert (F : lock_released hw_quiet 64 (boot mem_free)).
  { intros k. exists 0%nat. unfold next_read. now rewrite env_run_quiet. }
  split; [exact F|].
  exact (try_tm_terminates hw_quiet 64 mem_free F).
Defined.

(** C3, as the code has it.  When every XBEGIN starts a transaction, the
    load inside each transaction finds the lock word taken and every
    busy-wait sees it free in the end, [rte_try_tm] returns 0 with any
    sufficient fuel after exactly 20 passes: 20 XBEGINs, and in each pass
    the load inside the transaction (a value other than 0), XABORT with
    code 0xFF and one backoff; the passes see [retries] = 19 down to 0. *)
Theorem try_tm_lock_taken_falls_back (hw : Hardware) (lock : Z) (m : Mem) :
  (forall i, uint32 (hw_xbegin hw i) = RTE_XBEGIN_STARTED) ->
  taken_at_attempts hw lock (boot m) ->
  lock_released hw lock (boot m) ->
  exists N s' vs,
    (forall fuel, (N <= fuel)%nat ->
       rte_try_tm hw fuel lock (boot m) = (Done 0, s')) /\
    xbegins s' = 20%nat /\
    rdtscs s' = 20%nat /\
    length vs = 20%nat /\
    Forall (fun v => v <> 0) vs /\
    attempts (trace s') = busy_attempts lock RTE_RTM_MAX_RETRIES vs.
Proof.
  intros X T F.
  destruct (while_retries_busy hw lock 20 (le_n 20) X (boot m) T F)
    as (N & s' & vs & Run & X' & R' & L & V & A).
  exists N, s', vs. split; [|repeat split; assumption].
  intros fuel Hf. unfold rte_try_tm. now apply Run.
Qed.

Lemma try_tm_lock_taken_falls_back_witness :
  (forall i, uint32 (hw_xbegin hw_handoff i) = RTE_XBEGIN_STARTED) /\
  taken_at_attempts hw_handoff 64 (boot mem_free) /\
  lock_released hw_handoff 64 (boot mem_free) /\
  exists N s' vs,
    (forall fuel, (N <= fuel)%nat ->
       rte_try_tm hw_handoff fuel 64 (boot mem_free) = (Done 0, s')) /\
    xbegins s' = 20%nat /\
    rdtscs s' = 20%nat /\
    length vs = 20%nat /\
    Forall (fun v => v <> 0) vs /\
    attempts (trace s') = busy_attempts 64 RTE_RTM_MAX_RETRIES vs.
Proof.
  assert (X : forall i, uint32 (hw_xbegin hw_handoff i) = RTE_XBEGIN_STARTED)
    by (intros i; reflexivity).
  assert (T : taken_at_attempts hw_handoff 64 (boot mem_free)).
  { split.
    - rewrite next_read_handoff. discriminate.
    - intros j. rewrite !next_read_handoff, Nat.even_succ, <- Nat.negb_even.
      destruct (Nat.even j); cbn [negb]; [discriminate | intros _; discriminate]. }
  assert (F : lock_released hw_handoff 64 (boot mem_free)).
  { intros k. exists (if Nat.even k then 1%nat else 0%nat).
    rewrite next_read_handoff. destruct (Nat.even k) eqn:E.
    - rewrite Nat.add_1_r, Nat.even_succ, <- Nat.negb_even, E. reflexivity.
    - now rewrite Nat.add_0_r, E. }
  split; [exact X|]. split; [exact T|]. split; [exact F|].
  exact (try_tm_lock_taken_falls_back hw_handoff 64 mem_free X T F).
Defined.

(** C3, as the specification words it, fails: with the lock word 1 for the
    whole run and every XBEGIN starting a transaction, the first pass aborts
    and then waits at line 84 for a word that never becomes 0.  No amount
    of fuel lets the function return. *)
Lemma try_tm_lock_held_forever_hangs :
  (forall j, next_read hw_quiet 64 (boot mem_held) j <> 0) /\
  (forall i, uint32 (hw_xbegin hw_quiet i) = RTE_XBEGIN_STARTED) /\
  (forall fuel, exists s',
     rte_try_tm hw_quiet fuel 64 (boot mem_held) = (OutOfFuel, s')) /\
  ~ (exists fuel s',
       rte_try_tm hw_quiet fuel 64 (boot mem_held) = (Done 0, s')).
Proof.
  assert (H : forall s, mem s = mem_held ->
                forall j, next_read hw_quiet 64 s j <> 0).
  { intros s Hs j. unfold next_read. rewrite env_run_quiet, Hs. discriminate. }
  split; [apply H; reflexivity|]. split; [intros i; reflexivity|].
  assert (T : forall fuel, exists s',
            rte_try_tm hw_quiet fuel 64 (boot mem_held) = (OutOfFuel, s')).
  2:{ split; [exact T|]. intros (fuel & s' & R).
      destruct (T fuel) as [t Ht]. rewrite Ht in R. discriminate. }
  intros [|fuel].
  - eexists. reflexivity.
  - unfold rte_try_tm. cbn [while_retries].
    change (RTE_RTM_MAX_RETRIES =? 0) with false. cbv iota.
    unfold mbind at 1. rewrite loop_body_started by reflexivity.
    rewrite from_line77_taken; [| apply H; reflexivity | reflexivity].
    unfold abort_path. unfold mbind at 1.
    match goal with
    | |- context [wait_lock ?h ?f ?l ?s] =>
        destruct (wait_lock_spins h l f s) as [s' Hs'];
          [apply H; reflexivity | rewrite Hs']
    end.
    eexists. reflexivity.
Qed.

(** C4.  An abort status without the conflict flag, without the
    explicit-and-LOCK_BUSY combination and without the retry flag ends the
    loop in the pass that received it, whatever [retries] is left (any
    value but 0, for which no pass starts), once the busy-wait of that pass
    has seen the lock word free: the function returns 0 with one more
    XBEGIN and no RDTSC.  For [rte_try_tm] this is the pass that sees 19. *)
Theorem nonretryable_abort_breaks
    (hw : Hardware) (fuel n : nat) (lock retries : Z) (s s1 : Machine) :
  let status := uint32 (hw_xbegin hw (xbegins s)) in
  let r := int32 (retries - 1) in
  retries <> 0 ->
  Z.land status RTE_XABORT_CONFLICT = 0 ->
  ~ (flag_set status RTE_XABORT_EXPLICIT /\
     RTE_XABORT_CODE status = RTE_XABORT_LOCK_BUSY) ->
  Z.land status RTE_XABORT_RETRY = 0 ->
  wait_lock hw fuel lock (snd (rte_xbegin hw (log (EvBody r) s))) = (Done tt, s1) ->
  loop_body hw fuel lock r s = (Done CBreak, s1) /\
  while_retries hw fuel (S n) lock retries s = (Done 0, s1) /\
  xbegins s1 = S (xbegins s) /\
  rdtscs s1 = rdtscs s /\
  bodies (trace s1) = bodies (trace s) ++ [r].
Proof.
  intros status r R C E T W.
  assert (NS : status <> RTE_XBEGIN_STARTED).
  { intros X. rewrite X in C. vm_compute in C. discriminate. }
  assert (NT : transient status = false).
  { unfold transient. rewrite C. cbn [Z.eqb negb orb].
    destruct (Z.land status RTE_XABORT_EXPLICIT =? 0) eqn:E1; [reflexivity|].
    destruct (RTE_XABORT_CODE status =? RTE_XABORT_LOCK_BUSY) eqn:E2;
      [|reflexivity].
    exfalso. apply E. split.
    - unfold flag_set. now apply Z.eqb_neq.
    - now apply Z.eqb_eq. }
  assert (B : loop_body hw fuel lock r s = (Done CBreak, s1)).
  { rewrite loop_body_aborted by exact NS. fold status.
    rewrite (abort_path_after_wait hw fuel lock r status _ s1 W).
    rewrite NT. fold status in T. rewrite T. reflexivity. }
  split; [exact B|]. split.
  { cbn [while_retries]. apply Z.eqb_neq in R. rewrite R.
    unfold mbind. fold r. rewrite B. reflexivity. }
  apply wait_lock_counters in W. unfold rte_xbegin in W. fields.
  destruct W as (W1 & W2 & W3 & W4). auto.
Qed.

Lemma nonretryable_abort_breaks_witness :
  let s1 := mkMachine mem_free 1 1 0 0 false
              [EvLoad 64 0 false; EvXbegin 8; EvBody 19] in
  rte_try_tm hw_capacity 1 64 (boot mem_free) = (Done 0, s1) /\
  xbegins s1 = 1%nat.
Proof.
  intros s1.
  assert (W : wait_lock hw_capacity 1 64
                (snd (rte_xbegin hw_capacity (log (EvBody (int32 (20 - 1)))
                                                  (boot mem_free))))
              = (Done tt, s1)) by reflexivity.
  pose proof (nonretryable_abort_breaks hw_capacity 1 0 64 20
                (boot mem_free) s1) as T.
  cbv zeta in T.
  destruct T as (_ & R & X & _).
  - discriminate.
  - reflexivity.
  - intros [_ C]. vm_compute in C. discriminate.
  - reflexivity.
  - exact W.
  - split; [exact R | exact X].
Defined.

(** C5.  An abort status with the conflict flag, or with the explicit flag
    and the code LOCK_BUSY, sends the pass through the backoff once its
    busy-wait has seen the lock word free: one RDTSC, [pause_count] PAUSE
    instructions, and the loop goes on with [retries] one lower.  Nothing
    is asked of the retry flag: the outcome is the same with it set or
    clear. *)
Theorem transient_abort_backs_off
    (hw : Hardware) (fuel n : nat) (lock retries : Z) (s s1 : Machine) :
  let status := uint32 (hw_xbegin hw (xbegins s)) in
  let r := int32 (retries - 1) in
  let s2 := snd (backoff hw r s1) in
  retries <> 0 ->
  status <> RTE_XBEGIN_STARTED ->
  flag_set status RTE_XABORT_CONFLICT \/
    (flag_set status RTE_XABORT_EXPLICIT /\
     RTE_XABORT_CODE status = RTE_XABORT_LOCK_BUSY) ->
  wait_lock hw fuel lock (snd (rte_xbegin hw (log (EvBody r) s))) = (Done tt, s1) ->
  loop_body hw fuel lock r s = (Done CContinue, s2) /\
  while_retries hw fuel (S n) lock retries s =
    while_retries hw fuel n lock r s2 /\
  rdtscs s2 = S (rdtscs s1) /\
  pauses s2 = (pauses s1 + Z.to_N (pause_count (next_tsc hw s1) r))%N /\
  xbegins s2 = S (xbegins s).
Proof.
  intros status r s2 R NS C W.
  assert (TT : transient status = true).
  { unfold transient. destruct C as [C | [C1 C2]].
    - apply Z.eqb_neq in C. rewrite C. reflexivity.
    - apply Z.eqb_neq in C1. apply Z.eqb_eq in C2. rewrite C1, C2.
      apply orb_true_r. }
  assert (B : loop_body hw fuel lock r s = (Done CContinue, s2)).
  { rewrite loop_body_aborted by exact NS. fold status.
    rewrite (abort_path_after_wait hw fuel lock r status _ s1 W).
    now rewrite TT. }
  split; [exact B|]. split.
  { cbn [while_retries]. apply Z.eqb_neq in R. rewrite R.
    unfold mbind. fold r. rewrite B. reflexivity. }
  subst s2. rewrite backoff_runs. fields.
  apply wait_lock_counters in W. unfold rte_xbegin in W. fields.
  destruct W as (W1 & W2 & W3 & W4). auto.
Qed.

Lemma transient_abort_backs_off_witness :
  let s1 := mkMachine mem_free 1 1 0 0 false
              [EvLoad 64 0 false; EvXbegin 6; EvBody 19] in
  let s2 := snd (backoff hw_conflict 19 s1) in
  loop_body hw_conflict 1 64 19 (boot mem_free) = (Done CContinue, s2) /\
  while_retries hw_conflict 1 1 64 20 (boot mem_free) =
    while_retries hw_conflict 1 0 64 19 s2 /\
  pauses s2 = 10%N.
Proof.
  intros s1 s2.
  pose proof (transient_abort_backs_off hw_conflict 1 0 64 20
                (boot mem_free) s1) as T.
  cbv zeta in T.
  destruct T as (B & L & _ & P & _).
  - discriminate.
  - discriminate.
  - left. discriminate.
  - reflexivity.
  - split; [exact B|]. split; [exact L|]. exact P.
Defined.

(** C6.  A backoff entered by a pass that sees [retries] (0 to 19, the
    only values a pass of [rte_try_tm] sees) executes exactly
    [jitter << tryCount] PAUSE instructions, with [tryCount = 20 - retries];
    for the same jitter a later pass (larger [tryCount]) pauses strictly
    longer. *)
Theorem backoff_pause_count (hw : Hardware) (retries : Z) (s : Machine) :
  0 <= retries < 20 ->
  let tsc := next_tsc hw s in
  let s' := snd (backoff hw retries s) in
  try_count retries = 20 - retries /\
  pause_count tsc retries = Z.shiftl (jitter tsc) (try_count retries) /\
  pauses s' = (pauses s + Z.to_N (Z.shiftl (jitter tsc) (try_count retries)))%N /\
  forall tsc' retries', 0 <= retries' < 20 ->
    jitter tsc' = jitter tsc ->
    try_count retries < try_count retries' ->
    pause_count tsc retries < pause_count tsc' retries'.
Proof.
  intros H tsc s'. subst s'. rewrite backoff_runs. fields. fold tsc.
  rewrite (try_count_exact retries H), (pause_count_exact tsc retries H).
  repeat split.
  intros tsc' r' H' J' Lt. rewrite (try_count_exact r' H') in Lt.
  rewrite (pause_count_exact tsc' r' H'), J'.
  rewrite !Z.shiftl_mul_pow2 by lia.
  assert (J : 0 < jitter tsc)
    by (destruct (jitter_cases tsc) as [J | [J | [J | J]]]; rewrite J; lia).
  apply Z.mul_lt_mono_pos_l; [exact J|].
  apply Z.pow_lt_mono_r; lia.
Qed.

Lemma backoff_pause_count_witness :
  0 <= 19 < 20 /\
  pauses (snd (backoff hw_quiet 19 (boot mem_free))) =
  (pauses (boot mem_free) +
   Z.to_N (Z.shiftl (jitter (next_tsc hw_quiet (boot mem_free))) (try_count 19)))%N.
Proof.
  split; [lia|].
  apply (backoff_pause_count hw_quiet 19 (boot mem_free)). lia.
Defined.

(** C7.  The jitter of line 92 is one of 1, 3, 5, 7 for every value RDTSC
    can deliver; it is odd, not 0, and the conversion to [int] keeps it. *)
Theorem jitter_in_1_3_5_7 (eax edx : Z) :
  let tsc := __dpdk_rdtsc eax edx in
  In (jitter tsc) [1; 3; 5; 7] /\
  Z.odd (jitter tsc) = true /\
  jitter tsc <> 0 /\
  jitter tsc = Z.lor (Z.land tsc 7) 1.
Proof.
  intros tsc. split; [|split; [|split]].
  - cbn [In]. destruct (jitter_cases tsc) as [J | [J | [J | J]]]; rewrite J; auto.
  - destruct (jitter_cases tsc) as [J | [J | [J | J]]]; rewrite J; reflexivity.
  - destruct (jitter_cases tsc) as [J | [J | [J | J]]]; rewrite J; discriminate.
  - unfold jitter. apply int32_small.
    pose proof (land7_range tsc) as H.
    assert (C : Z.land tsc 7 = 0 \/ Z.land tsc 7 = 1 \/ Z.land tsc 7 = 2 \/
                Z.land tsc 7 = 3 \/ Z.land tsc 7 = 4 \/ Z.land tsc 7 = 5 \/
                Z.land tsc 7 = 6 \/ Z.land tsc 7 = 7) by lia.
    repeat (destruct C as [C | C]); rewrite C; vm_compute; split; congruence.
Qed.

(** C8.  Whatever the hardware answers and whether or not the run ends,
    the memory [rte_try_tm] leaves behind is the memory it started with
    after the stores of the other threads alone: no step of the function
    stores to the lock word or anywhere else. *)
Theorem try_tm_never_writes (hw : Hardware) (fuel : nat) (lock : Z) (s : Machine) :
  let s' := snd (rte_try_tm hw fuel lock s) in
  (loads s <= loads s')%nat /\
  mem s' = env_run hw (loads s) (loads s' - loads s) (mem s).
Proof.
  exact (keeps_mem_while_retries hw fuel fuel lock RTE_RTM_MAX_RETRIES s).
Qed.

(** C9.  [__dpdk_rdtsc] returns [hi * 2^32 + lo] for the halves [lo] (EAX)
    and [hi] (EDX) that RDTSC delivers: a 64-bit value whose low 32 bits
    are [lo] and whose high 32 bits are [hi]. *)
Theorem dpdk_rdtsc_combines_halves (lo hi : Z) :
  0 <= lo < 2 ^ 32 -> 0 <= hi < 2 ^ 32 ->
  __dpdk_rdtsc lo hi = hi * 2 ^ 32 + lo /\
  0 <= __dpdk_rdtsc lo hi < 2 ^ 64 /\
  __dpdk_rdtsc lo hi mod 2 ^ 32 = lo /\
  __dpdk_rdtsc lo hi / 2 ^ 32 = hi /\
  lo_32 (store_lo_hi lo hi) = lo /\
  hi_32 (store_lo_hi lo hi) = hi.
Proof.
  intros Hlo Hhi. unfold __dpdk_rdtsc. rewrite tsc_64_store.
  unfold uint32. rewrite !Z.mod_small by assumption.
  change (2 ^ 64) with (2 ^ 32 * 2 ^ 32).
  split; [reflexivity|]. split; [nia|]. split; [|split; [|split]].
  - rewrite Z.add_comm, Z.mod_add by lia. apply Z.mod_small. exact Hlo.
  - rewrite Z.add_comm, Z.div_add by lia. rewrite Z.div_small by exact Hlo. lia.
  - unfold lo_32, store_lo_hi. cbn [tsc_bytes].
    change (firstn 4 (le_bytes 4 (uint32 lo) ++ le_bytes 4 (uint32 hi)))
      with (le_bytes 4 (uint32 lo)).
    rewrite le_value_bytes. unfold uint32. change (256 ^ Z.of_nat 4) with (2 ^ 32).
    rewrite (Z.mod_small lo) by exact Hlo. apply Z.mod_small. exact Hlo.
  - unfold hi_32, store_lo_hi. cbn [tsc_bytes].
    change (firstn 4 (skipn 4 (le_bytes 4 (uint32 lo) ++ le_bytes 4 (uint32 hi))))
      with (le_bytes 4 (uint32 hi)).
    rewrite le_value_bytes. unfold uint32. change (256 ^ Z.of_nat 4) with (2 ^ 32).
    rewrite (Z.mod_small hi) by exact Hhi. apply Z.mod_small. exact Hhi.
Qed.

Lemma dpdk_rdtsc_combines_halves_witness :
  0 <= 1 < 2 ^ 32 /\ 0 <= 2 < 2 ^ 32 /\
  __dpdk_rdtsc 1 2 = 2 * 2 ^ 32 + 1 /\
  0 <= __dpdk_rdtsc 1 2 < 2 ^ 64 /\
  __dpdk_rdtsc 1 2 mod 2 ^ 32 = 1 /\
  __dpdk_rdtsc 1 2 / 2 ^ 32 = 2 /\
  lo_32 (store_lo_hi 1 2) = 1 /\
  hi_32 (store_lo_hi 1 2) = 2.
Proof.
  split; [lia|]. split; [lia|].
  apply (dpdk_rdtsc_combines_halves 1 2); lia.
Defined.

(** C10.  When [rte_try_tm] returns 1, the last two things the machine did
    were an XBEGIN that started a transaction and a load of the lock word
    inside it that returned 0; the machine is still inside that
    transaction.  The return never comes from behind an XABORT. *)
Theorem try_tm_entered_saw_free_lock
    (hw : Hardware) (fuel : nat) (lock : Z) (s s' : Machine) :
  rte_try_tm hw fuel lock s = (Done 1, s') ->
  in_tx s' = true /\
  exists rest,
    trace s' = EvLoad lock 0 true :: EvXbegin RTE_XBEGIN_STARTED :: rest.
Proof.
  unfold rte_try_tm. generalize RTE_RTM_MAX_RETRIES. generalize fuel at 2.
  intros n. revert s. induction n as [|n IH]; intros s r R; cbn [while_retries] in R.
  - discriminate.
  - destruct (r =? 0); [discriminate|].
    unfold mbind in R.
    destruct (loop_body hw fuel lock (int32 (r - 1)) s) as [[c|] s1] eqn:B;
      [|discriminate].
    destruct c as [v| |].
    + unfold mret in R. inversion R; subst.
      apply loop_body_return in B. destruct B as (_ & T & Tr).
      split; [exact T|]. eexists. exact Tr.
    + discriminate.
    + eapply IH. exact R.
Qed.

Lemma try_tm_entered_saw_free_lock_witness :
  rte_try_tm hw_quiet 1 64 (boot mem_free) =
    (Done 1, snd (rte_try_tm hw_quiet 1 64 (boot mem_free))) /\
  in_tx (snd (rte_try_tm hw_quiet 1 64 (boot mem_free))) = true /\
  exists rest,
    trace (snd (rte_try_tm hw_quiet 1 64 (boot mem_free))) =
    EvLoad 64 0 true :: EvXbegin RTE_XBEGIN_STARTED :: rest.
Proof.
  split; [reflexivity|].
  apply (try_tm_entered_saw_free_lock hw_quiet 1 64 (boot mem_free)).
  reflexivity.
Defined.

(** ** Further properties: how a pass and the loop can end *)

Lemma abort_path_outcome (hw : Hardware) (fuel : nat)
    (lock retries status : Z) (s s' : Machine) (c : Ctl) :
  abort_path hw fuel lock retries status s = (Done c, s') ->
  exists s1, wait_lock hw fuel lock s = (Done tt, s1) /\
    ((transient status = true /\ c = CContinue /\
      s' = snd (backoff hw retries s1)) \/
     (transient status = false /\ Z.land status RTE_XABORT_RETRY = 0 /\
      c = CBreak /\ s' = s1) \/
     (transient status = false /\ Z.land status RTE_XABORT_RETRY <> 0 /\
      c = CContinue /\ s' = s1)).
Proof.
  intros R.
  destruct (wait_lock hw fuel lock s) as [[[]|] s1] eqn:W.
  2:{ unfold abort_path, mbind in R. rewrite W in R. discriminate. }
  rewrite (abort_path_after_wait hw fuel lock retries status s s1 W) in R.
  exists s1. split; [reflexivity|].
  destruct (transient status).
  - inversion R. auto.
  - destruct (Z.land status RTE_XABORT_RETRY =? 0) eqn:E.
    + apply Z.eqb_eq in E. inversion R. right. left. auto.
    + apply Z.eqb_neq in E. inversion R. right. right. auto.
Qed.

(** The ways a pass can end, with the status its XBEGIN delivered. *)
Lemma loop_body_outcome (hw : Hardware) (fuel : nat)
    (lock retries : Z) (s s1 : Machine) (c : Ctl) :
  loop_body hw fuel lock retries s = (Done c, s1) ->
  xbegins s1 = S (xbegins s) /\
  match c with
  | CReturn v => v = 1 /\ in_tx s1 = true
  | CBreak => in_tx s1 = false /\ nonretryable (uint32 (hw_xbegin hw (xbegins s)))
  | CContinue => in_tx s1 = false
  end.
Proof.
  intros R.
  set (status := uint32 (hw_xbegin hw (xbegins s))).
  assert (A : forall st t,
            xbegins t = S (xbegins s) -> in_tx t = false ->
            abort_path hw fuel lock retries st t = (Done c, s1) ->
            xbegins s1 = S (xbegins s) /\ in_tx s1 = false /\
            (c = CContinue \/
             (c = CBreak /\ transient st = false /\
              Z.land st RTE_XABORT_RETRY = 0))).
  { intros st t Xt Tt Rt.
    apply abort_path_outcome in Rt. destruct Rt as (t1 & W & Cases).
    apply wait_lock_counters in W. destruct W as (W1 & _ & W3 & _).
    destruct Cases as [(_ & C & E) | [(T & Rf & C & E) | (_ & _ & C & E)]];
      subst c s1.
    - rewrite backoff_runs. fields. split; [congruence|]. split; [congruence|].
      now left.
    - split; [congruence|]. split; [congruence|]. right. auto.
    - split; [congruence|]. split; [congruence|]. now left. }
  destruct (Z.eq_dec status RTE_XBEGIN_STARTED) as [E|NE].
  - rewrite loop_body_started in R by exact E.
    match type of R with
    | from_line77 _ _ _ _ _ _ ?t = _ => set (s0 := t) in *
    end.
    destruct (Z.eq_dec (next_read hw lock s0 0) 0) as [Z0|NZ].
    + rewrite from_line77_free in R by exact Z0. inversion R; subst.
      unfold load. fields. auto.
    + destruct fuel as [|fuel].
      * exfalso. unfold next_read in NZ. cbn [env_run] in NZ.
        apply Z.eqb_neq in NZ. cbn [from_line77] in R.
        rewrite Z.eqb_refl in R. unfold mbind at 1 in R.
        unfold load at 1 in R. rewrite NZ in R. cbn [negb] in R.
        unfold mbind, rte_xabort in R. subst s0. fields. discriminate.
      * rewrite from_line77_taken in R by (exact NZ || reflexivity).
        apply A in R; [|reflexivity|reflexivity].
        destruct R as (X & T & [C | (C & Tr & _)]); subst c.
        -- auto.
        -- rewrite xabort_status_transient in Tr. discriminate.
  - rewrite loop_body_aborted in R by exact NE. fold status in R.
    apply A in R.
    + destruct R as (X & T & [C | (C & Tr & Rf)]); subst c.
      * auto.
      * split; [exact X|]. split; [exact T|]. repeat split; assumption.
    + reflexivity.
    + unfold rte_xbegin. fields. fold status. apply Z.eqb_neq. congruence.
Qed.

Lemma while_retries_result (hw : Hardware) (fuel n : nat) (lock : Z) :
  forall retries s v s',
  in_tx s = false ->
  while_retries hw fuel n lock retries s = (Done v, s') ->
  (v = 0 /\ in_tx s' = false) \/ (v = 1 /\ in_tx s' = true).
Proof.
  induction n as [|n IH]; intros retries s v s' T R; cbn [while_retries] in R.
  - discriminate.
  - destruct (retries =? 0).
    + inversion R; subst. auto.
    + unfold mbind in R.
      destruct (loop_body hw fuel lock (int32 (retries - 1)) s)
        as [[c|] s1] eqn:B; [|discriminate].
      apply loop_body_outcome in B. destruct B as (_ & B).
      destruct c as [w| |].
      * destruct B as [W T1]. inversion R; subst. auto.
      * destruct B as [T1 _]. inversion R; subst. auto.
      * eapply IH; eassumption.
Qed.

Lemma while_retries_fallback_cause (hw : Hardware) (fuel n : nat) (lock : Z) :
  forall (k : nat) s s',
  (k <= 20)%nat ->
  while_retries hw fuel n lock (Z.of_nat k) s = (Done 0, s') ->
  xbegins s' = (xbegins s + k)%nat \/
  ((xbegins s < xbegins s')%nat /\
   nonretryable (uint32 (hw_xbegin hw (xbegins s' - 1)))).
Proof.
  induction n as [|n IH]; intros k s s' K R; cbn [while_retries] in R.
  - discriminate.
  - destruct k as [|k].
    + change (Z.of_nat 0 =? 0) with true in R. inversion R; subst. left. lia.
    + assert (NZ : (Z.of_nat (S k) =? 0) = false) by (apply Z.eqb_neq; lia).
      rewrite NZ, int32_pred_of_nat in R by lia. unfold mbind in R.
      destruct (loop_body hw fuel lock (Z.of_nat k) s) as [[c|] s1] eqn:B;
        [|discriminate].
      apply loop_body_outcome in B. destruct B as (X & B).
      destruct c as [w| |].
      * destruct B as [W _]. inversion R; subst. discriminate.
      * destruct B as [_ NR]. inversion R; subst. right.
        split; [lia|]. rewrite X.
        replace (S (xbegins s) - 1)%nat with (xbegins s) by lia. exact NR.
      * apply IH in R; [|lia]. destruct R as [R | [L NR]].
        -- left. lia.
        -- right. split; [lia | exact NR].
Qed.

(** ** Further properties: relations every step keeps

    A relation on machines that is reflexive and transitive and holds across
    each instruction holds across every run of the functions built from
    them, finished or not. *)

Section RunKeeps.
Variable hw : Hardware.
Variable lock : Z.
Variable R : Machine -> Machine -> Prop.
Hypothesis R_refl : forall s, R s s.
Hypothesis R_trans : forall s1 s2 s3, R s1 s2 -> R s2 s3 -> R s1 s3.

Lemma run_keeps_ret {A} (a : A) : run_keeps R (mret a).
Proof. intros s. apply R_refl. Qed.

Lemma run_keeps_out_of_fuel {A} : run_keeps R (@out_of_fuel A).
Proof. intros s. apply R_refl. Qed.

Lemma run_keeps_bind {A B} (m : M A) (k : A -> M B) :
  run_keeps R m -> (forall a, run_keeps R (k a)) -> run_keeps R (mbind m k).
Proof.
  intros Hm Hk s. unfold mbind. specialize (Hm s).
  destruct (m s) as [[a|] s1]; cbn [snd] in *.
  - eapply R_trans; [exact Hm | apply Hk].
  - exact Hm.
Qed.

Hypothesis R_load : run_keeps R (load hw lock).
Hypothesis R_pause : forall s, R s (pause_step s).
Hypothesis R_rdtsc : run_keeps R (rte_rdtsc hw).
Hypothesis R_xabort : run_keeps R (rte_xabort RTE_XABORT_LOCK_BUSY).

Lemma run_keeps_wait_lock (fuel : nat) : run_keeps R (wait_lock hw fuel lock).
Proof.
  induction fuel as [|fuel IH]; cbn [wait_lock].
  - apply run_keeps_out_of_fuel.
  - apply run_keeps_bind; [exact R_load|].
    intros v. destruct (v =? 0); [apply run_keeps_ret|].
    apply run_keeps_bind; [exact R_pause | intros _; exact IH].
Qed.

Lemma run_keeps_pause_loop (n : Z) : run_keeps R (pause_loop n).
Proof.
  intros s. unfold pause_loop. cbn [snd].
  induction (Z.to_N n) as [|k IH] using N.peano_ind.
  - apply R_refl.
  - rewrite N.iter_succ. eapply R_trans; [exact IH | apply R_pause].
Qed.

Lemma run_keeps_backoff (retries : Z) : run_keeps R (backoff hw retries).
Proof.
  unfold backoff. apply run_keeps_bind; [exact R_rdtsc|].
  intros tsc. apply run_keeps_pause_loop.
Qed.

Lemma run_keeps_abort_path (fuel : nat) (retries status : Z) :
  run_keeps R (abort_path hw fuel lock retries status).
Proof.
  unfold abort_path. apply run_keeps_bind; [apply run_keeps_wait_lock|].
  intros _. destruct (transient status).
  - apply run_keeps_bind; [apply run_keeps_backoff|].
    intros _. apply run_keeps_ret.
  - destruct (_ =? 0); apply run_keeps_ret.
Qed.

Lemma run_keeps_from_line77 (fuel k : nat) (retries status : Z) :
  run_keeps R (from_line77 hw fuel k lock retries status).
Proof.
  revert status. induction k as [|k IH]; intros status; cbn [from_line77];
    (destruct (RTE_XBEGIN_STARTED =? status); [|apply run_keeps_abort_path]);
    (apply run_keeps_bind; [exact R_load|]);
    intros v; (destruct (negb (v =? 0)); [|apply run_keeps_ret]);
    (apply run_keeps_bind; [exact R_xabort|]);
    intros [st|]; try apply run_keeps_ret.
  - apply run_keeps_out_of_fuel.
  - apply IH.
Qed.

Hypothesis R_xbegin : run_keeps R (rte_xbegin hw).
Hypothesis R_body : forall retries s, R s (log (EvBody retries) s).

Lemma run_keeps_loop_body (fuel : nat) (retries : Z) :
  run_keeps R (loop_body hw fuel lock retries).
Proof.
  intros s. unfold loop_body.
  eapply R_trans; [apply R_body|].
  apply (run_keeps_bind (rte_xbegin hw)
           (from_line77 hw fuel fuel lock retries)); [exact R_xbegin|].
  intros st. apply run_keeps_from_line77.
Qed.

Lemma run_keeps_while_retries (fuel n : nat) (retries : Z) :
  run_keeps R (while_retries hw fuel n lock retries).
Proof.
  revert retries. induction n as [|n IH]; intros retries; cbn [while_retries].
  - apply run_keeps_out_of_fuel.
  - destruct (retries =? 0); [apply run_keeps_ret|].
    apply run_keeps_bind; [apply run_keeps_loop_body|].
    intros [v| |]; try apply run_keeps_ret. apply IH.
Qed.
End RunKeeps.

(** ** Further properties: statements *)


(** X1.  Started outside a transaction, [rte_try_tm] returns nothing but 0
    or 1, and the value is what [rte_xtest] reports right afterwards: 1
    inside the transaction it entered, 0 outside any transaction, where
    [rte_xend] would fault. *)
Theorem try_tm_result_matches_xtest
    (hw : Hardware) (fuel : nat) (lock v : Z) (s s' : Machine) :
  in_tx s = false ->
  rte_try_tm hw fuel lock s = (Done v, s') ->
  (v = 0 \/ v = 1) /\
  rte_xtest s' = (Done v, s') /\
  (v = 0 -> rte_xend s' = None).
Proof.
  intros T R. unfold rte_try_tm in R.
  apply while_retries_result in R; [|exact T].
  unfold rte_xtest, rte_xend.
  destruct R as [[V I] | [V I]]; subst v; rewrite I.
  - auto.
  - split; [auto|]. split; [reflexivity|]. discriminate.
Qed.

Lemma try_tm_result_matches_xtest_witness :
  let s' := snd (rte_try_tm hw_capacity 1 64 (boot mem_free)) in
  in_tx (boot mem_free) = false /\
  rte_try_tm hw_capacity 1 64 (boot mem_free) = (Done 0, s') /\
  rte_xtest s' = (Done 0, s') /\
  rte_xend s' = None.
Proof.
  intros s'. split; [reflexivity|]. split; [reflexivity|].
  destruct (try_tm_result_matches_xtest hw_capacity 1 64 0 (boot mem_free) s')
    as (_ & X & E); [reflexivity | reflexivity |].
  split; [exact X | apply E; reflexivity].
Defined.



(** X3.  [rte_try_tm] returns 0 for one of two reasons only: all 20
    attempts are used up, or the last XBEGIN delivered an abort status
    without conflict flag, explicit LOCK_BUSY code and retry flag. *)
Theorem try_tm_fallback_cause
    (hw : Hardware) (fuel : nat) (lock : Z) (s s' : Machine) :
  rte_try_tm hw fuel lock s = (Done 0, s') ->
  xbegins s' = (xbegins s + 20)%nat \/
  ((xbegins s < xbegins s')%nat /\
   nonretryable (uint32 (hw_xbegin hw (xbegins s' - 1)))).
Proof.
  intros R. unfold rte_try_tm in R.
  exact (while_retries_fallback_cause hw fuel fuel lock 20 s s' (le_n 20) R).
Qed.

Lemma try_tm_fallback_cause_witness :
  let s' := snd (rte_try_tm hw_capacity 1 64 (boot mem_free)) in
  rte_try_tm hw_capacity 1 64 (boot mem_free) = (Done 0, s') /\
  (xbegins s' = (xbegins (boot mem_free) + 20)%nat \/
   ((xbegins (boot mem_free) < xbegins s')%nat /\
    nonretryable (uint32 (hw_xbegin hw_capacity (xbegins s' - 1))))).
Proof.
  intros s'. split; [reflexivity|].
  apply (try_tm_fallback_cause hw_capacity 1 64 (boot mem_free) s').
  reflexivity.
Defined.

(** X4.  An abort status with the retry flag, without the conflict flag
    and without the explicit LOCK_BUSY code, makes the pass try again at
    once: when its busy-wait has ended the next pass starts from that very
    machine, with [retries] one lower and no RDTSC or backoff in between. *)
Theorem retry_hinted_abort_retries_at_once
    (hw : Hardware) (fuel n : nat) (lock retries : Z) (s s1 : Machine) :
  let status := uint32 (hw_xbegin hw (xbegins s)) in
  let r := int32 (retries - 1) in
  retries <> 0 ->
  Z.land status RTE_XABORT_CONFLICT = 0 ->
  ~ (flag_set status RTE_XABORT_EXPLICIT /\
     RTE_XABORT_CODE status = RTE_XABORT_LOCK_BUSY) ->
  flag_set status RTE_XABORT_RETRY ->
  wait_lock hw fuel lock (snd (rte_xbegin hw (log (EvBody r) s))) = (Done tt, s1) ->
  loop_body hw fuel lock r s = (Done CContinue, s1) /\
  while_retries hw fuel (S n) lock retries s =
    while_retries hw fuel n lock r s1 /\
  xbegins s1 = S (xbegins s) /\
  rdtscs s1 = rdtscs s.
Proof.
  intros status r R C E T W.
  assert (NS : status <> RTE_XBEGIN_STARTED).
  { intros X. rewrite X in C. vm_compute in C. discriminate. }
  assert (NT : transient status = false).
  { unfold transient. rewrite C. cbn [Z.eqb negb orb].
    destruct (Z.land status RTE_XABORT_EXPLICIT =? 0) eqn:E1; [reflexivity|].
    destruct (RTE_XABORT_CODE status =? RTE_XABORT_LOCK_BUSY) eqn:E2;
      [|reflexivity].
    exfalso. apply E. split.
    - unfold flag_set. now apply Z.eqb_neq.
    - now apply Z.eqb_eq. }
  assert (B : loop_body hw fuel lock r s = (Done CContinue, s1)).
  { rewrite loop_body_aborted by exact NS. fold status.
    rewrite (abort_path_after_wait hw fuel lock r status _ s1 W).
    rewrite NT. apply Z.eqb_neq in T. fold status in T. rewrite T.
    reflexivity. }
  split; [exact B|]. split.
  { cbn [while_retries]. apply Z.eqb_neq in R. rewrite R.
    unfold mbind. fold r. rewrite B. reflexivity. }
  apply wait_lock_counters in W. unfold rte_xbegin in W. fields.
  destruct W as (W1 & W2 & _). auto.
Qed.

Lemma retry_hinted_abort_retries_at_once_witness :
  let s1 := mkMachine mem_free 1 1 0 0 false
              [EvLoad 64 0 false; EvXbegin 2; EvBody 19] in
  loop_body hw_retry 1 64 19 (boot mem_free) = (Done CContinue, s1) /\
  while_retries hw_retry 1 1 64 20 (boot mem_free) =
    while_retries hw_retry 1 0 64 19 s1 /\
  rdtscs s1 = 0%nat.
Proof.
  intros s1.
  pose proof (retry_hinted_abort_retries_at_once hw_retry 1 0 64 20
                (boot mem_free) s1) as T.
  cbv zeta in T.
  destruct T as (B & L & _ & Rd).
  - discriminate.
  - reflexivity.
  - intros [_ C]. vm_compute in C. discriminate.
  - discriminate.
  - reflexivity.
  - split; [exact B|]. split; [exact L | exact Rd].
Defined.

(** X5.  When the busy-wait returns, it has stopped at the first load that
    found the lock word 0: every earlier load found it taken and was
    followed by one PAUSE, and nothing was executed after the free load. *)
Theorem wait_lock_leaves_at_first_free
    (hw : Hardware) (lock : Z) (fuel : nat) (s s' : Machine) :
  wait_lock hw fuel lock s = (Done tt, s') ->
  exists i,
    (i < fuel)%nat /\
    next_read hw lock s i = 0 /\
    (forall i', (i' < i)%nat -> next_read hw lock s i' <> 0) /\
    loads s' = (loads s + S i)%nat /\
    pauses s' = (pauses s + N.of_nat i)%N /\
    exists rest, trace s' = EvLoad lock 0 (in_tx s) :: rest.
Proof.
  revert s. induction fuel as [|fuel IH]; intros s R; cbn [wait_lock] in R.
  - discriminate.
  - unfold mbind at 1 in R. unfold load at 1 in R.
    destruct (hw_env hw (loads s) (mem s) lock =? 0) eqn:E.
    + apply Z.eqb_eq in E. inversion R; subst. exists 0%nat.
      split; [lia|]. split; [exact E|]. split; [intros i' Hi; lia|].
      fields. split; [lia|]. split; [lia|]. rewrite E. eexists. reflexivity.
    + apply Z.eqb_neq in E. unfold mbind, pause in R.
      apply IH in R. destruct R as (i & Hi & Z0 & Before & L & P & rest & Tr).
      pose proof (fun k => next_read_shift hw lock s
                    (pause_step (snd (load hw lock s))) 1 k
                    ltac:(unfold load; fields; lia)
                    ltac:(unfold load; fields; reflexivity)) as Sh.
      unfold load in Sh. fields.
      exists (S i). split; [lia|]. rewrite Sh in Z0. split; [exact Z0|].
      split; [|split; [lia | split; [lia | eexists; exact Tr]]].
      intros [|i'] Hi'; [exact E|].
      specialize (Before i' ltac:(lia)). now rewrite Sh in Before.
Qed.

Lemma wait_lock_leaves_at_first_free_witness :
  let s' := snd (wait_lock hw_handoff 2 64 (boot mem_free)) in
  wait_lock hw_handoff 2 64 (boot mem_free) = (Done tt, s') /\
  exists i,
    (i < 2)%nat /\
    next_read hw_handoff 64 (boot mem_free) i = 0 /\
    (forall i', (i' < i)%nat -> next_read hw_handoff 64 (boot mem_free) i' <> 0) /\
    loads s' = (loads (boot mem_free) + S i)%nat /\
    pauses s' = (pauses (boot mem_free) + N.of_nat i)%N /\
    exists rest, trace s' = EvLoad 64 0 (in_tx (boot mem_free)) :: rest.
Proof.
  intros s'. split; [reflexivity|].
  apply (wait_lock_leaves_at_first_free hw_handoff 64 2 (boot mem_free) s').
  reflexivity.
Defined.

Lemma same_xbegins_from_line77 (hw : Hardware) (fuel k : nat)
    (lock retries status : Z) :
  run_keeps same_xbegins (from_line77 hw fuel k lock retries status).
Proof.
  apply run_keeps_from_line77; unfold same_xbegins, run_keeps;
    try reflexivity; try congruence.
  intros s. unfold rte_rdtsc. destruct (hw_rdtsc hw (rdtscs s)). reflexivity.
Qed.

Lemma loop_body_one_xbegin (hw : Hardware) (fuel : nat)
    (lock retries : Z) (s : Machine) :
  xbegins (snd (loop_body hw fuel lock retries s)) = S (xbegins s).
Proof.
  unfold loop_body. unfold mbind at 1. unfold rte_xbegin at 1.
  now rewrite same_xbegins_from_line77.
Qed.

Lemma while_retries_xbegins (hw : Hardware) (fuel n : nat) (lock : Z) :
  forall (k : nat) s, (k <= 20)%nat ->
  (xbegins s <= xbegins (snd (while_retries hw fuel n lock (Z.of_nat k) s))
   <= xbegins s + k)%nat.
Proof.
  induction n as [|n IH]; intros k s K; cbn [while_retries].
  - unfold out_of_fuel. cbn [snd]. lia.
  - destruct k as [|k].
    + change (Z.of_nat 0 =? 0) with true. cbv iota. unfold mret.
      cbn [snd]. lia.
    + assert (NZ : (Z.of_nat (S k) =? 0) = false) by (apply Z.eqb_neq; lia).
      rewrite NZ, int32_pred_of_nat by lia. unfold mbind.
      pose proof (loop_body_one_xbegin hw fuel lock (Z.of_nat k) s) as X.
      destruct (loop_body hw fuel lock (Z.of_nat k) s) as [[c|] s1];
        cbn [snd] in X.
      * destruct c as [v| |]; unfold mret; cbn [snd]; try lia.
        specialize (IH k s1 ltac:(lia)). lia.
      * cbn [snd]. lia.
Qed.

(** X6.  A run of [rte_try_tm] executes at most 20 XBEGIN instructions,
    whatever the hardware and the other threads do and whether the run
    returns or still waits for the lock word. *)
Theorem try_tm_xbegin_budget
    (hw : Hardware) (fuel : nat) (lock : Z) (s : Machine) :
  let s' := snd (rte_try_tm hw fuel lock s) in
  (xbegins s <= xbegins s' <= xbegins s + 20)%nat.
Proof.
  exact (while_retries_xbegins hw fuel fuel lock 20 s (le_n 20)).
Qed.

Lemma adds_allowed_refl (lock : Z) (s : Machine) : adds_allowed lock s s.
Proof. exists []. split; [reflexivity | constructor]. Qed.

Lemma adds_allowed_trans (lock : Z) (s1 s2 s3 : Machine) :
  adds_allowed lock s1 s2 -> adds_allowed lock s2 s3 -> adds_allowed lock s1 s3.
Proof.
  intros (n1 & T1 & F1) (n2 & T2 & F2). exists (n2 ++ n1). split.
  - rewrite T2, T1. apply app_assoc.
  - apply Forall_app. auto.
Qed.

Lemma adds_allowed_one (lock : Z) (e : Event) (s s' : Machine) :
  trace s' = e :: trace s -> allowed_event lock e -> adds_allowed lock s s'.
Proof.
  intros T A. exists [e]. split; [exact T|]. constructor; [exact A | constructor].
Qed.

(** X7.  Whatever [rte_try_tm] adds to the trace, finished or not, it reads
    no memory but the lock word and executes XABORT with no code but
    LOCK_BUSY: the trace only grows, and every new load is from [lock] and
    every new XABORT carries 0xFF. *)
Theorem try_tm_touches_only_lock
    (hw : Hardware) (fuel : nat) (lock : Z) (s : Machine) :
  let s' := snd (rte_try_tm hw fuel lock s) in
  exists new,
    trace s' = new ++ trace s /\
    (forall addr v tx, In (EvLoad addr v tx) new -> addr = lock) /\
    (forall code, In (EvXabort code) new -> code = RTE_XABORT_LOCK_BUSY).
Proof.
  intros s'.
  assert (K : adds_allowed lock s s').
  { apply (run_keeps_while_retries hw lock (adds_allowed lock)).
    - apply adds_allowed_refl.
    - apply adds_allowed_trans.
    - intros t. eapply adds_allowed_one; unfold load; fields;
        [reflexivity | reflexivity].
    - intros t. exists []. split; [reflexivity | constructor].
    - intros t. unfold rte_rdtsc. destruct (hw_rdtsc hw (rdtscs t)).
      eapply adds_allowed_one; fields; [reflexivity | exact I].
    - intros t. eapply adds_allowed_one; unfold rte_xabort; fields;
        [reflexivity | reflexivity].
    - intros t. eapply adds_allowed_one; unfold rte_xbegin; fields;
        [reflexivity | exact I].
    - intros r t. eapply adds_allowed_one; fields; [reflexivity | exact I]. }
  destruct K as (new & T & F). exists new. split; [exact T|].
  rewrite Forall_forall in F. split.
  - intros addr v tx H. exact (F _ H).
  - intros code H. exact (F _ H).
Qed.

(** ** Further properties: how long the backoff pauses *)

Lemma pause_count_bounds (tsc retries : Z) :
  0 <= retries < 20 ->
  Z.shiftl 1 (20 - retries) <= pause_count tsc retries
  <= Z.shiftl 7 (20 - retries).
Proof.
  intros H. rewrite pause_count_exact by exact H.
  rewrite !Z.shiftl_mul_pow2 by lia.
  assert (P : 0 < 2 ^ (20 - retries)) by (apply Z.pow_pos_nonneg; lia).
  destruct (jitter_cases tsc) as [J | [J | [J | J]]]; rewrite J; nia.
Qed.

Lemma backoff_budget_nonneg (j : Z) (k : nat) :
  0 <= j -> 0 <= backoff_budget j k.
Proof.
  intros J. induction k as [|k IH]; cbn [backoff_budget]; [lia|].
  pose proof (Z.shiftl_nonneg j (20 - Z.of_nat k)). lia.
Qed.

Lemma wait_lock_free (hw : Hardware) (lock : Z) (fuel : nat) (s : Machine) :
  next_read hw lock s 0 = 0 ->
  wait_lock hw (S fuel) lock s = (Done tt, snd (load hw lock s)).
Proof.
  intros Z0. unfold next_read in Z0. cbn [env_run] in Z0.
  apply Z.eqb_eq in Z0. cbn [wait_lock]. unfold mbind, load. now rewrite Z0.
Qed.

Lemma lock_free_shift (hw : Hardware) (lock : Z) (s s' : Machine) (d : nat) :
  loads s' = (loads s + d)%nat ->
  mem s' = env_run hw (loads s) d (mem s) ->
  lock_free hw lock s -> lock_free hw lock s'.
Proof.
  intros L Me F j. rewrite (next_read_shift hw lock s s' d) by assumption.
  apply F.
Qed.

(** One pass while the lock word stays free: no PAUSE but those of its
    backoff, if it has one. *)
Lemma loop_body_pauses_free (hw : Hardware) (fuel : nat)
    (lock retries : Z) (s : Machine) :
  lock_free hw lock s ->
  0 <= retries < 20 ->
  let s1 := snd (loop_body hw fuel lock retries s) in
  lock_free hw lock s1 /\
  (pauses s1 <= pauses s + Z.to_N (Z.shiftl 7 (20 - retries)))%N.
Proof.
  intros F H s1. subst s1.
  set (status := uint32 (hw_xbegin hw (xbegins s))).
  destruct (Z.eq_dec status RTE_XBEGIN_STARTED) as [E|NE].
  - rewrite loop_body_started by exact E.
    rewrite from_line77_free by (apply (F 0%nat)).
    unfold load. fields. split; [|lia].
    apply lock_free_shift with (s := s) (d := 1%nat); fields;
      [lia | reflexivity | exact F].
  - rewrite loop_body_aborted by exact NE. fold status.
    set (s0 := snd (rte_xbegin hw (log (EvBody retries) s))).
    assert (F0 : lock_free hw lock s0).
    { apply lock_free_shift with (s := s) (d := 0%nat); subst s0;
        unfold rte_xbegin; fields; [lia | reflexivity | exact F]. }
    destruct fuel as [|fuel].
    + unfold abort_path, mbind. cbn [wait_lock]. unfold out_of_fuel.
      cbn [snd]. split; [exact F0|]. subst s0. unfold rte_xbegin. fields. lia.
    + rewrite (abort_path_after_wait hw (S fuel) lock retries status s0
                 (snd (load hw lock s0)))
        by (apply wait_lock_free; apply (F0 0%nat)).
      assert (Fl : lock_free hw lock (snd (load hw lock s0))).
      { apply lock_free_shift with (s := s0) (d := 1%nat); unfold load; fields;
          [lia | reflexivity | exact F0]. }
      destruct (transient status);
        [| destruct (Z.land status RTE_XABORT_RETRY =? 0)]; cbn [snd].
      * rewrite backoff_runs. fields.
        set (tsc := next_tsc hw (snd (load hw lock s0))).
        pose proof (pause_count_bounds tsc retries H) as PB.
        split.
        -- apply lock_free_shift with (s := snd (load hw lock s0)) (d := 0%nat);
             fields; [lia | reflexivity | exact Fl].
        -- unfold load, s0, rte_xbegin. fields. lia.
      * split; [exact Fl|]. unfold load, s0, rte_xbegin. fields. lia.
      * split; [exact Fl|]. unfold load, s0, rte_xbegin. fields. lia.
Qed.

Lemma while_retries_pauses_free (hw : Hardware) (fuel n : nat) (lock : Z) :
  forall (k : nat) s, (k <= 20)%nat ->
  lock_free hw lock s ->
  (pauses (snd (while_retries hw fuel n lock (Z.of_nat k) s))
   <= pauses s + Z.to_N (backoff_budget 7 k))%N.
Proof.
  induction n as [|n IH]; intros k s K F; cbn [while_retries].
  - unfold out_of_fuel. cbn [snd]. lia.
  - destruct k as [|k].
    + change (Z.of_nat 0 =? 0) with true. cbv iota. unfold mret.
      cbn [snd]. lia.
    + assert (NZ : (Z.of_nat (S k) =? 0) = false) by (apply Z.eqb_neq; lia).
      rewrite NZ, int32_pred_of_nat by lia. unfold mbind.
      destruct (loop_body_pauses_free hw fuel lock (Z.of_nat k) s F
                  ltac:(lia)) as [F1 P1].
      cbn [backoff_budget].
      pose proof (backoff_budget_nonneg 7 k ltac:(lia)) as B0.
      pose proof (Z.shiftl_nonneg 7 (20 - Z.of_nat k)) as S0.
      rewrite Z2N.inj_add by lia.
      destruct (loop_body hw fuel lock (Z.of_nat k) s) as [[c|] s1];
        cbn [snd] in F1, P1.
      * destruct c as [v| |]; unfold mret; cbn [snd]; try lia.
        specialize (IH k s1 ltac:(lia) F1). lia.
      * cbn [snd]. lia.
Qed.

(** X8.  While the lock word is free at every load, a run of
    [rte_try_tm] executes at most 7 * (2^21 - 2) = 14680050 PAUSE
    instructions, whatever the XBEGINs and the cycle counter deliver. *)
Theorem try_tm_pause_bound
    (hw : Hardware) (fuel : nat) (lock : Z) (s : Machine) :
  lock_free hw lock s ->
  (pauses (snd (rte_try_tm hw fuel lock s)) <= pauses s + 14680050)%N.
Proof.
  intros F.
  exact (while_retries_pauses_free hw fuel fuel lock 20 s (le_n 20) F).
Qed.

Lemma try_tm_pause_bound_witness :
  lock_free hw_conflict 64 (boot mem_free) /\
  (pauses (snd (rte_try_tm hw_conflict 21 64 (boot mem_free)))
   <= pauses (boot mem_free) + 14680050)%N.
Proof.
  assert (F : lock_free hw_conflict 64 (boot mem_free)).
  { intros j. unfold next_read.
    assert (E : forall c from m, env_run hw_conflict from c m = m).
    { induction c as [|c IH]; intros from m; cbn [env_run];
        [reflexivity | apply IH]. }
    now rewrite E. }
  split; [exact F|].
  exact (try_tm_pause_bound hw_conflict 21 64 (boot mem_free) F).
Defined.

Lemma flat_map_seq_shift {A} (f : nat -> list A) (k : nat) :
  flat_map f (seq 1 k) = flat_map (fun a => f (S a)) (seq 0 k).
Proof.
  rewrite <- seq_shift, !flat_map_concat_map, map_map. reflexivity.
Qed.

Lemma while_retries_all_transient (hw : Hardware) (lock : Z) (k : nat) :
  (k <= 20)%nat ->
  (forall i, uint32 (hw_xbegin hw i) <> RTE_XBEGIN_STARTED /\
             transient (uint32 (hw_xbegin hw i)) = true) ->
  forall s, lock_released hw lock s ->
  exists N s',
    (forall fuel n, (N <= fuel)%nat -> (N <= n)%nat ->
       while_retries hw fuel n lock (Z.of_nat k) s = (Done 0, s')) /\
    xbegins s' = (xbegins s + k)%nat /\
    rdtscs s' = (rdtscs s + k)%nat /\
    (pauses s + Z.to_N (backoff_budget 1 k) <= pauses s')%N /\
    attempts (trace s') = attempts (trace s) ++
      flat_map (fun i => [EvBody (Z.of_nat k - 1 - Z.of_nat i);
                          EvXbegin (uint32 (hw_xbegin hw (xbegins s + i)))])
               (seq 0 k).
Proof.
  intros K X. induction k as [|k IH]; intros s F.
  - exists 1%nat, s. split; [|repeat split].
    + intros fuel [|n] _ Hn; [lia|]. reflexivity.
    + lia.
    + lia.
    + cbn [backoff_budget]. lia.
    + cbn [seq flat_map]. now rewrite app_nil_r.
  - set (r := Z.of_nat k).
    set (status := uint32 (hw_xbegin hw (xbegins s))).
    destruct (X (xbegins s)) as [NS TT]. fold status in NS, TT.
    set (s0 := snd (rte_xbegin hw (log (EvBody r) s))).
    assert (F0 : lock_released hw lock s0).
    { apply lock_released_shift with (s := s) (d := 0%nat); subst s0;
        unfold rte_xbegin; fields; [lia | reflexivity | exact F]. }
    destruct (F0 0%nat) as [j Hj]. cbn [Nat.add] in Hj.
    destruct (abort_path_ends hw lock r status s0 j Hj)
      as (i & s1 & Hi & W & Run).
    rewrite TT in Run.
    pose proof (lock_released_waited hw lock s0 s1 i W F0) as F1.
    set (s2 := snd (backoff hw r s1)) in *.
    destruct W as (_ & _ & _ & W3 & W4 & W5 & _ & _ & W8).
    destruct (IH ltac:(lia) s2) as (N2 & s' & Run2 & X2 & R2 & P2 & A2).
    { subst s2. now apply lock_released_backoff. }
    assert (In_tx0 : in_tx s0 = false).
    { subst s0. unfold rte_xbegin. fields. fold status.
      apply Z.eqb_neq. congruence. }
    assert (PB : Z.shiftl 1 (20 - r) <= pause_count (next_tsc hw s1) r)
      by (apply pause_count_bounds; subst r; lia).
    pose proof (Z.shiftl_nonneg 1 (20 - r)) as S0.
    pose proof (backoff_budget_nonneg 1 k ltac:(lia)) as B0.
    exists (S (Nat.max j N2)), s'. split; [|repeat split].
    + intros fuel [|n] Hf Hn; [lia|]. cbn [while_retries].
      assert (NZ : (Z.of_nat (S k) =? 0) = false) by (apply Z.eqb_neq; lia).
      rewrite NZ, int32_pred_of_nat by lia. unfold mbind. fold r.
      rewrite loop_body_aborted by exact NS. fold status. fold s0.
      rewrite Run by lia. apply Run2; lia.
    + rewrite X2. subst s2. rewrite backoff_runs. fields. rewrite W3.
      subst s0; unfold rte_xbegin; fields. lia.
    + rewrite R2. subst s2. rewrite backoff_runs. fields. rewrite W4.
      subst s0; unfold rte_xbegin; fields. lia.
    + cbn [backoff_budget]. fold r. rewrite Z2N.inj_add by lia.
      eapply N.le_trans; [|exact P2].
      subst s2. rewrite backoff_runs. fields. rewrite W5.
      subst s0; unfold rte_xbegin; fields. lia.
    + rewrite A2. subst s2. rewrite backoff_runs. fields.
      rewrite attempts_cons_out by reflexivity.
      rewrite W8 by exact In_tx0.
      subst s0; unfold rte_xbegin; fields.
      rewrite !attempts_cons_in by reflexivity.
      rewrite <- !app_assoc. f_equal.
      cbn [seq flat_map app]. rewrite W3. fields.
      rewrite Nat.add_0_r.
      replace (Z.of_nat (S k) - 1 - Z.of_nat 0) with r by (subst r; lia).
      fold status. do 2 f_equal.
      rewrite flat_map_seq_shift.
      apply flat_map_ext. intros a. unfold rte_xbegin. fields.
      replace (Z.of_nat (S k) - 1 - Z.of_nat (S a))
        with (Z.of_nat k - 1 - Z.of_nat a) by lia.
      now rewrite Nat.add_succ_r.
Qed.

(** X9.  When every XBEGIN delivers a transient abort status (conflict, or
    explicit with LOCK_BUSY) and every busy-wait ends, [rte_try_tm] uses
    all 20 attempts and returns 0: 20 XBEGINs, no load inside a
    transaction and no XABORT, 20 backoffs with one RDTSC each, and at
    least 2^21 - 2 = 2097150 PAUSE instructions. *)
Theorem try_tm_all_transient_exhausts
    (hw : Hardware) (lock : Z) (m : Mem) :
  (forall i, uint32 (hw_xbegin hw i) <> RTE_XBEGIN_STARTED /\
             transient (uint32 (hw_xbegin hw i)) = true) ->
  lock_released hw lock (boot m) ->
  exists N s',
    (forall fuel, (N <= fuel)%nat ->
       rte_try_tm hw fuel lock (boot m) = (Done 0, s')) /\
    xbegins s' = 20%nat /\
    rdtscs s' = 20%nat /\
    (2097150 <= pauses s')%N /\
    attempts (trace s') =
      flat_map (fun i => [EvBody (19 - Z.of_nat i);
                          EvXbegin (uint32 (hw_xbegin hw i))])
               (seq 0 20).
Proof.
  intros X F.
  destruct (while_retries_all_transient hw lock 20 (le_n 20) X (boot m) F)
    as (N & s' & Run & X' & R' & P & A).
  exists N, s'. split; [|repeat split; assumption].
  intros fuel Hf. unfold rte_try_tm. now apply Run.
Qed.

Lemma try_tm_all_transient_exhausts_witness :
  (forall i, uint32 (hw_xbegin hw_conflict i) <> RTE_XBEGIN_STARTED /\
             transient (uint32 (hw_xbegin hw_conflict i)) = true) /\
  lock_released hw_conflict 64 (boot mem_free) /\
  exists N s',
    (forall fuel, (N <= fuel)%nat ->
       rte_try_tm hw_conflict fuel 64 (boot mem_free) = (Done 0, s')) /\
    xbegins s' = 20%nat /\
    rdtscs s' = 20%nat /\
    (2097150 <= pauses s')%N /\
    attempts (trace s') =
      flat_map (fun i => [EvBody (19 - Z.of_nat i);
                          EvXbegin (uint32 (hw_xbegin hw_conflict i))])
               (seq 0 20).
Proof.
  assert (X : forall i, uint32 (hw_xbegin hw_conflict i) <> RTE_XBEGIN_STARTED /\
                        transient (uint32 (hw_xbegin hw_conflict i)) = true).
  { intros i. split; [discriminate | reflexivity]. }
  assert (F : lock_released hw_conflict 64 (boot mem_free)).
  { intros k. exists 0%nat. unfold next_read.
    assert (E : forall c from m, env_run hw_conflict from c m = m).
    { induction c as [|c IH]; intros from m; cbn [env_run];
        [reflexivity | apply IH]. }
    now rewrite E. }
  split; [exact X|]. split; [exact F|].
  exact (try_tm_all_transient_exhausts hw_conflict 64 mem_free X F).
Defined.

(** X10.  With the same jitter the pause count doubles from one attempt to
    the next, and for the passes of [rte_try_tm] it stays within 2 and
    7 * 2^20 = 7340032, so the [int] it is computed in never overflows. *)
Theorem pause_count_doubles (tsc tsc' retries : Z) :
  0 <= retries -> retries + 1 < 20 ->
  jitter tsc' = jitter tsc ->
  pause_count tsc' retries = 2 * pause_count tsc (retries + 1) /\
  2 <= pause_count tsc (retries + 1) /\
  pause_count tsc' retries <= 7340032.
Proof.
  intros H0 H1 J.
  rewrite (pause_count_exact tsc' retries) by lia.
  rewrite (pause_count_exact tsc (retries + 1)) by lia.
  rewrite J, !Z.shiftl_mul_pow2 by lia.
  replace (20 - retries) with (Z.succ (20 - (retries + 1))) by lia.
  rewrite Z.pow_succ_r by lia.
  assert (P : 2 <= 2 ^ (20 - (retries + 1)) <= 2 ^ 19).
  { split.
    - change 2 with (2 ^ 1) at 1. apply Z.pow_le_mono_r; lia.
    - apply Z.pow_le_mono_r; lia. }
  change (2 ^ 19) with 524288 in P.
  destruct (jitter_cases tsc) as [E | [E | [E | E]]]; rewrite E; lia.
Qed.

Lemma pause_count_doubles_witness :
  0 <= 18 /\ 18 + 1 < 20 /\ jitter 13 = jitter 5 /\
  pause_count 13 18 = 2 * pause_count 5 (18 + 1) /\
  2 <= pause_count 5 (18 + 1) /\
  pause_count 13 18 <= 7340032.
Proof.
  split; [lia|]. split; [lia|]. split; [reflexivity|].
  apply (pause_count_doubles 5 13 18); [lia | lia | reflexivity].
Defined.

(** X11.  [__dpdk_rdtsc] keeps the order of the counter: one result is
    below another exactly when its high half is lower, or the high halves
    agree and its low half is lower.  Different pairs of halves give
    different results. *)
Theorem dpdk_rdtsc_keeps_order (lo hi lo' hi' : Z) :
  0 <= lo < 2 ^ 32 -> 0 <= hi < 2 ^ 32 ->
  0 <= lo' < 2 ^ 32 -> 0 <= hi' < 2 ^ 32 ->
  (__dpdk_rdtsc lo hi < __dpdk_rdtsc lo' hi' <->
   hi < hi' \/ (hi = hi' /\ lo < lo')) /\
  (__dpdk_rdtsc lo hi = __dpdk_rdtsc lo' hi' -> lo = lo' /\ hi = hi').
Proof.
  intros L H L' H'. unfold __dpdk_rdtsc. rewrite !tsc_64_store.
  unfold uint32. rewrite !Z.mod_small by assumption.
  change (2 ^ 32) with 4294967296 in *. lia.
Qed.

Lemma dpdk_rdtsc_keeps_order_witness :
  0 <= 4294967295 < 2 ^ 32 /\ 0 <= 1 < 2 ^ 32 /\
  0 <= 0 < 2 ^ 32 /\ 0 <= 2 < 2 ^ 32 /\
  __dpdk_rdtsc 4294967295 1 < __dpdk_rdtsc 0 2.
Proof.
  split; [lia|]. split; [lia|]. split; [lia|]. split; [lia|].
  apply (dpdk_rdtsc_keeps_order 4294967295 1 0 2); lia.
Defined.

(** All codes an XABORT can carry, checked one by one. *)
Lemma xabort_codes_checked :
  forallb
    (fun n =>
       let c := Z.of_nat n in
       let st := xabort_status c in
       (RTE_XABORT_CODE st =? c)
       && negb (Z.land st RTE_XABORT_EXPLICIT =? 0)
       && (Z.land st RTE_XABORT_RETRY =? 0)
       && (Z.land st RTE_XABORT_CONFLICT =? 0)
       && (Z.land st RTE_XABORT_CAPACITY =? 0)
       && (Z.land st RTE_XABORT_DEBUG =? 0)
       && (Z.land st RTE_XABORT_NESTED =? 0)
       && Bool.eqb (transient st) (c =? RTE_XABORT_LOCK_BUSY))
    (seq 0 256) = true.
Proof. vm_compute. reflexivity. Qed.

(** X12.  The status of an explicit abort with code [c] (0 to 255) is
    decoded by the macros of tsx.c as raised: [RTE_XABORT_CODE] gives [c]
    back, the explicit flag is set and the other five flags are clear.
    The loop treats it as transient exactly when [c] is LOCK_BUSY; with any
    other code it is a status that ends the loop. *)
Theorem xabort_code_round_trip (c : Z) :
  0 <= c <= 255 ->
  let st := xabort_status c in
  RTE_XABORT_CODE st = c /\
  flag_set st RTE_XABORT_EXPLICIT /\
  Z.land st RTE_XABORT_RETRY = 0 /\
  Z.land st RTE_XABORT_CONFLICT = 0 /\
  Z.land st RTE_XABORT_CAPACITY = 0 /\
  Z.land st RTE_XABORT_DEBUG = 0 /\
  Z.land st RTE_XABORT_NESTED = 0 /\
  (transient st = true <-> c = RTE_XABORT_LOCK_BUSY) /\
  (c <> RTE_XABORT_LOCK_BUSY -> nonretryable st).
Proof.
  intros H st.
  pose proof xabort_codes_checked as K. rewrite forallb_forall in K.
  specialize (K (Z.to_nat c)).
  rewrite Z2Nat.id in K by lia. cbv zeta in K. fold st in K.
  assert (I : In (Z.to_nat c) (seq 0 256)) by (apply in_seq; lia).
  specialize (K I). clear I.
  repeat match type of K with
         | (_ && _) = true =>
             let K' := fresh "K" in
             apply andb_true_iff in K; destruct K as [K K']
         end.
  apply negb_true_iff, Z.eqb_neq in K6.
  apply Z.eqb_eq in K, K5, K4, K3, K2, K1.
  apply Bool.eqb_prop in K0.
  assert (TR : transient st = true <-> c = RTE_XABORT_LOCK_BUSY).
  { rewrite K0. apply Z.eqb_eq. }
  repeat (split; [assumption|]).
  intros Ne. split; [apply xabort_status_not_started|].
  split; [|assumption].
  destruct (transient st); [|reflexivity]. exfalso. apply Ne. now apply TR.
Qed.

Lemma xabort_code_round_trip_witness :
  0 <= 1 <= 255 /\
  RTE_XABORT_CODE (xabort_status 1) = 1 /\
  nonretryable (xabort_status 1).
Proof.
  split; [lia|].
  destruct (xabort_code_round_trip 1) as (C & _ & _ & _ & _ & _ & _ & _ & N);
    [lia|].
  split; [exact C | apply N; discriminate].
Defined.
